(** * gen-unit-ai: the upload and test-generation components, and the
      extraction core they talk to.

    The React components [FileUpload] and [TestGeneration] are embedded as
    pure functions over explicit component state; every effect they have on
    the outside (the request that is sent, the callbacks that are invoked, the
    console) is recorded in the state that is passed along. *)

From Stdlib Require Import List String Ascii Arith ZArith QArith Bool Lia.
From Stdlib Require Import Decimal DecimalNat DecimalString FinFun.
Close Scope Q_scope.
Import ListNotations.
Set Warnings "-register-all".
Local Open Scope string_scope.
Local Open Scope list_scope.

(** ** JavaScript primitives used by the components *)

Module Js.

(** [String(n)] for a non-negative integer [n]: its decimal numeral. *)
Definition String_of_nat (n : nat) : string :=
  NilEmpty.string_of_uint (Nat.to_uint n).

(** The filler of [padStart]: [n] characters taken from [pad], repeated as
    often as needed and cut off; empty when [pad] is empty. *)
Fixpoint fill (n : nat) (pad cur : string) : string :=
  match n with
  | O => ""
  | S n' =>
      match cur with
      | String c rest => String c (fill n' pad rest)
      | EmptyString =>
          match pad with
          | String c rest => String c (fill n' pad rest)
          | EmptyString => ""
          end
      end
  end.

(** [s.padStart(target, pad)] *)
Definition padStart (s : string) (target : nat) (pad : string) : string :=
  if (target <=? String.length s)%nat then s
  else fill (target - String.length s) pad pad ++ s.

(** [s.endsWith(suffix)] *)
Definition endsWith (s suffix : string) : bool :=
  let n := String.length s in
  let m := String.length suffix in
  if (m <=? n)%nat then String.eqb (substring (n - m) m s) suffix else false.

(** Values as they come out of [JSON.parse] or sit in component state that
    is typed [any].  An object is its list of own properties; a number is
    a rational ([NaN] and the infinities do not occur in JSON). *)
Inductive Value : Type :=
| Undefined
| Null
| Bool (b : bool)
| Num (q : Q)
| Str (s : string)
| Arr (items : list Value)
| Obj (props : list (string * Value)).

(** Truthiness, as tested by [&&], [||] and [if]. *)
Definition truthy (v : Value) : bool :=
  match v with
  | Undefined | Null => false
  | Bool b => b
  | Num q => negb (Qeq_bool q 0)
  | Str s => negb (String.eqb s "")
  | Arr _ | Obj _ => true
  end.

(** [a || b] *)
Definition or_else (a b : Value) : Value := if truthy a then a else b.

Fixpoint lookup (k : string) (props : list (string * Value)) : Value :=
  match props with
  | [] => Undefined
  | (k', v) :: rest => if String.eqb k k' then v else lookup k rest
  end.

(** [v.k] for the data keys the components read ([status], [data],
    [message], [test_cases], [function_name], ...): a [TypeError] ([None])
    on [null] and [undefined], [undefined] on a value that is not an
    object, since none of these keys is a built-in property. *)
Definition get (v : Value) (k : string) : option Value :=
  match v with
  | Undefined | Null => None
  | Obj props => Some (lookup k props)
  | _ => Some Undefined
  end.

(** [a === 'literal'] *)
Definition strict_eq_str (v : Value) (lit : string) : bool :=
  match v with
  | Str s => String.eqb s lit
  | _ => false
  end.

End Js.

(** ** FileUpload.tsx *)

Module FileUpload.

Inductive FileType : Type := source | header.

(** [interface UploadedFile] *)
Record UploadedFile : Type := mkUploadedFile {
  id : string;
  name : string;
  size : nat;
  type : FileType;
  content : option string
}.

(** What the component reads of a browser [File]: [file.name],
    [file.size] and the text [await file.text()] resolves to. *)
Record File : Type := mkFile {
  file_name : string;
  file_size : nat;
  file_text : string
}.

(** Component state ([useState]) together with the arguments with which
    the [onFilesChange] prop has been called so far, oldest first. *)
Record State : Type := mkState {
  files : list UploadedFile;
  dragActive : bool;
  onFilesChange_calls : list (list UploadedFile)
}.

Definition initial : State := mkState [] false [].

Definition setFiles (fs : list UploadedFile) (st : State) : State :=
  mkState fs (dragActive st) (onFilesChange_calls st).

Definition onFilesChange (fs : list UploadedFile) (st : State) : State :=
  mkState (files st) (dragActive st) (onFilesChange_calls st ++ [fs]).

(** [file.name.endsWith('.h') ? 'header' : 'source'] *)
Definition fileType (f : File) : FileType :=
  if Js.endsWith (file_name f) ".h" then header else source.

(** The loop of [processFiles].  [random k] is the string that
    [Math.random().toString(36).substr(2, 9)] yields at the [k]-th
    iteration. *)
Fixpoint newFiles (random : nat -> string) (k : nat) (fileList : list File)
  : list UploadedFile :=
  match fileList with
  | [] => []
  | file :: rest =>
      mkUploadedFile (random k) (file_name file) (file_size file)
                     (fileType file) (Some (file_text file))
      :: newFiles random (S k) rest
  end.

Definition processFiles (random : nat -> string) (fileList : list File)
                        (st : State) : State :=
  let updatedFiles := files st ++ newFiles random 0 fileList in
  onFilesChange updatedFiles (setFiles updatedFiles st).

Definition removeFile (id0 : string) (st : State) : State :=
  let updatedFiles :=
    filter (fun file => negb (String.eqb (id file) id0)) (files st) in
  onFilesChange updatedFiles (setFiles updatedFiles st).

(** The [accept] attribute of the file input: [".c,.cpp,.h,.hpp"]. *)
Definition accept : list string := [".c"; ".cpp"; ".h"; ".hpp"].

Definition chooser_accepts (file_name0 : string) : bool :=
  existsb (Js.endsWith file_name0) accept.

End FileUpload.

(** ** TestGeneration.tsx: what its three versions share *)

Module TestGeneration.

(** [type TestStatus]; ['running'] exists in the four-step version only. *)
Inductive TestStatus : Type :=
  idle | generating | parsing | running | completed | failed.

Definition status_eqb (a b : TestStatus) : bool :=
  match a, b with
  | idle, idle | generating, generating | parsing, parsing
  | running, running | completed, completed | failed, failed => true
  | _, _ => false
  end.

(** The [disabled] attribute of the Generate button:
    [status !== 'idle' && status !== 'completed' && status !== 'failed']. *)
Definition disabled (status : TestStatus) : bool :=
  negb (status_eqb status idle)
  && negb (status_eqb status completed)
  && negb (status_eqb status failed).

(** One rendered line of the "Excel Test Report" dialog. *)
Record Row : Type := mkRow {
  cell_id : string;
  cell_function_name : Js.Value;
  cell_description : Js.Value;
  cell_expected_result : Js.Value;
  cell_status : string
}.

(** The callback given to [excelData?.map]; [None] is the [TypeError] of
    reading a property of [null] or [undefined]. *)
Definition renderRow (row : Js.Value) (index : nat) : option Row :=
  match Js.get row "function_name",
        Js.get row "description",
        Js.get row "expected_result" with
  | Some f, Some d, Some e =>
      Some (mkRow ("TC_" ++ Js.padStart (Js.String_of_nat (index + 1)) 3 "0")
                  (Js.or_else f (Js.Str "N/A"))
                  (Js.or_else d (Js.Str "N/A"))
                  (Js.or_else e (Js.Str "N/A"))
                  "Pending")
  | _, _, _ => None
  end.

(** [items.map(callback)] from position [index] on. *)
Fixpoint mapRows (items : list Js.Value) (index : nat) : option (list Row) :=
  match items with
  | [] => Some []
  | row :: rest =>
      match renderRow row index, mapRows rest (S index) with
      | Some r, Some rs => Some (r :: rs)
      | _, _ => None
      end
  end.

Inductive Rendered : Type :=
| Rows (rows : list Row)
| Placeholder
| RenderError.

(** What React accepts as a child of an element: a string, a number, a
    boolean, [null], [undefined], or an array of such; on a plain object it
    throws "Objects are not valid as a React child". *)
Fixpoint valid_child (v : Js.Value) : bool :=
  match v with
  | Js.Obj _ => false
  | Js.Arr items =>
      (fix all (l : list Js.Value) : bool :=
         match l with
         | [] => true
         | x :: rest => valid_child x && all rest
         end) items
  | _ => true
  end.

(** Whether React can show the three data cells of a row. *)
Definition row_shows (r : Row) : bool :=
  valid_child (cell_function_name r)
  && valid_child (cell_description r)
  && valid_child (cell_expected_result r).

(** The rows of the report as they are shown:
    [excelData?.map(...) || <placeholder>].  The placeholder when
    [excelData] is [null] or [undefined]; [RenderError] when something
    throws: the call of a [map] method that is not there, a property read
    on a [null] or [undefined] entry, or React meeting a plain object among
    the cells. *)
Definition renderExcelData (excelData : Js.Value) : Rendered :=
  match excelData with
  | Js.Undefined | Js.Null => Placeholder
  | Js.Arr items =>
      match mapRows items 0 with
      | Some rows => if forallb row_shows rows then Rows rows else RenderError
      | None => RenderError
      end
  | _ => RenderError
  end.

End TestGeneration.

(** ** TestGeneration.tsx, the version that calls the backend *)

Module Api.
Import TestGeneration.

(** One entry of the [files] array of the request body. *)
Record FileData : Type := mkFileData {
  filename : string;
  content : string;
  size : nat
}.

(** Component state, the [files] prop, and what the component has done to
    the outside so far: bodies posted to [/generate_tests], arguments
    passed to [onTestGenerated], and [console.error] lines. *)
Record Component : Type := mkComponent {
  files : list FileUpload.UploadedFile;
  status : TestStatus;
  progress : nat;
  currentStep : string;
  results : Js.Value;
  excelData : Js.Value;
  testScripts : Js.Value;
  requests : list (list FileData);
  onTestGenerated_calls : list Js.Value;
  console : list Js.Value
}.

Definition initial (fs : list FileUpload.UploadedFile) : Component :=
  mkComponent fs idle 0 "" Js.Null Js.Null Js.Null [] [] [].

Definition setStatus (s : TestStatus) (c : Component) : Component :=
  mkComponent (files c) s (progress c) (currentStep c) (results c)
    (excelData c) (testScripts c) (requests c) (onTestGenerated_calls c)
    (console c).
Definition setProgress (p : nat) (c : Component) : Component :=
  mkComponent (files c) (status c) p (currentStep c) (results c)
    (excelData c) (testScripts c) (requests c) (onTestGenerated_calls c)
    (console c).
Definition setCurrentStep (s : string) (c : Component) : Component :=
  mkComponent (files c) (status c) (progress c) s (results c)
    (excelData c) (testScripts c) (requests c) (onTestGenerated_calls c)
    (console c).
Definition setResults (v : Js.Value) (c : Component) : Component :=
  mkComponent (files c) (status c) (progress c) (currentStep c) v
    (excelData c) (testScripts c) (requests c) (onTestGenerated_calls c)
    (console c).
Definition setExcelData (v : Js.Value) (c : Component) : Component :=
  mkComponent (files c) (status c) (progress c) (currentStep c) (results c)
    v (testScripts c) (requests c) (onTestGenerated_calls c) (console c).
Definition setTestScripts (v : Js.Value) (c : Component) : Component :=
  mkComponent (files c) (status c) (progress c) (currentStep c) (results c)
    (excelData c) v (requests c) (onTestGenerated_calls c) (console c).
Definition post (body : list FileData) (c : Component) : Component :=
  mkComponent (files c) (status c) (progress c) (currentStep c) (results c)
    (excelData c) (testScripts c) (requests c ++ [body])
    (onTestGenerated_calls c) (console c).
Definition onTestGenerated (v : Js.Value) (c : Component) : Component :=
  mkComponent (files c) (status c) (progress c) (currentStep c) (results c)
    (excelData c) (testScripts c) (requests c)
    (onTestGenerated_calls c ++ [v]) (console c).
Definition console_error (v : Js.Value) (c : Component) : Component :=
  mkComponent (files c) (status c) (progress c) (currentStep c) (results c)
    (excelData c) (testScripts c) (requests c) (onTestGenerated_calls c)
    (console c ++ [v]).

(** The body of a [try] block: it changes the component and either
    returns or throws; what it changed before throwing stays. *)
Inductive Outcome (A : Type) : Type :=
| Returned (a : A)
| Thrown (error : Js.Value).
Arguments Returned {A} a.
Arguments Thrown {A} error.

Definition M (A : Type) : Type := Component -> Component * Outcome A.

Definition ret {A} (a : A) : M A := fun c => (c, Returned a).
Definition throw {A} (e : Js.Value) : M A := fun c => (c, Thrown e).
Definition bind {A B} (m : M A) (k : A -> M B) : M B :=
  fun c =>
    match m c with
    | (c', Returned a) => k a c'
    | (c', Thrown e) => (c', Thrown e)
    end.
Definition act (f : Component -> Component) : M unit :=
  fun c => (f c, Returned tt).
(** Property access inside [try]. *)
Definition read (v : Js.Value) (k : string) : M Js.Value :=
  match Js.get v k with
  | Some x => ret x
  | None => throw (Js.Str "TypeError")
  end.

Notation "x <- m ;; k" := (bind m (fun x => k))
  (at level 61, m at next level, right associativity).
Notation "m ;; k" := (bind m (fun _ => k))
  (at level 61, right associativity).

(** What [fetch] and [response.json()] come to: the promise of [fetch]
    rejects, or there is a response with its [ok] flag, its [statusText]
    and the value its body parses to ([None]: it does not parse). *)
Inductive FetchResult : Type :=
| NetworkError
| Response (ok : bool) (statusText : string) (json : option Js.Value).

(** [generateTestsAPI], after the request has gone out. *)
Definition generateTestsAPI (fr : FetchResult) : M Js.Value :=
  match fr with
  | NetworkError => throw (Js.Str "Failed to fetch")
  | Response false statusText _ =>
      throw (Js.Str ("Test generation failed: " ++ statusText))
  | Response true _ None => throw (Js.Str "SyntaxError")
  | Response true _ (Some v) => ret v
  end.

(** [files.map(file => ({filename: file.name, content: file.content || '',
    size: file.size}))] *)
Definition toFileData (file : FileUpload.UploadedFile) : FileData :=
  mkFileData (FileUpload.name file)
             (match FileUpload.content file with
              | Some s => if String.eqb s "" then "" else s
              | None => ""
              end)
             (FileUpload.size file).

(** [generateTests] up to [await generateTestsAPI(fileData)].  The flag
    tells whether the call is now waiting for the response; it is not
    after the early return. *)
Definition generateTests_start (c : Component) : Component * bool :=
  if (List.length (files c) =? 0)%nat then
    (console_error (Js.Str "No files available for processing") c, false)
  else
    let c := setStatus generating c in
    let c := setProgress 0 c in
    let c := setCurrentStep "Uploading files..." c in
    let c := setProgress 25 c in
    let fileData := map toFileData (files c) in
    let c := setCurrentStep "Generating Tests with Gemini AI" c in
    let c := setProgress 50 c in
    (post fileData c, true).

(** The rest of the [try] block, from the moment the awaited call
    settles.  The [onTestGenerated] prop is taken not to throw (the handler
    the page passes stores and logs its argument). *)
Definition generateTests_try (fr : FetchResult) : M unit :=
  response <- generateTestsAPI fr ;;
  st <- read response "status" ;;
  data <- (if Js.strict_eq_str st "success" then read response "data"
           else ret (Js.Bool false)) ;;
  if Js.truthy data then
    act (setCurrentStep "Test Generation Complete") ;;
    act (setStatus parsing) ;;
    act (setProgress 100) ;;
    let testData := data in
    act (setResults testData) ;;
    test_cases <- read testData "test_cases" ;;
    act (setExcelData (Js.or_else test_cases (Js.Arr []))) ;;
    test_runner_script <- read testData "test_runner_script" ;;
    makefile_content <- read testData "makefile_content" ;;
    test_cases' <- read testData "test_cases" ;;
    act (setTestScripts (Js.Obj
      [("test_runner_script", Js.or_else test_runner_script (Js.Str ""));
       ("makefile_content", Js.or_else makefile_content (Js.Str ""));
       ("test_cases", Js.or_else test_cases' (Js.Arr []))])) ;;
    act (setStatus completed) ;;
    act (onTestGenerated testData)
  else
    message <- read response "message" ;;
    throw (Js.or_else message (Js.Str "Failed to generate tests")).

(** The [catch] block. *)
Definition generateTests_catch (error : Js.Value) (c : Component)
  : Component :=
  let c := setStatus failed c in
  let c := setCurrentStep "Generation failed" c in
  console_error error c.

Definition generateTests_resume (fr : FetchResult) (c : Component)
  : Component :=
  match generateTests_try fr c with
  | (c', Returned _) => c'
  | (c', Thrown e) => generateTests_catch e c'
  end.

(** A whole call of [generateTests], the awaited call settling as [fr]. *)
Definition generateTests (fr : FetchResult) (c : Component) : Component :=
  match generateTests_start c with
  | (c', true) => generateTests_resume fr c'
  | (c', false) => c'
  end.

(** The component between events: its state and the number of
    [generateTests] calls that wait for their response. *)
Record Running : Type := mkRunning {
  component : Component;
  in_flight : nat
}.

Inductive Event : Type :=
| Click                       (* the user presses the Generate button *)
| Settle (fr : FetchResult).  (* the oldest awaited call settles *)

(** The button exists when [files.length !== 0] and reacts when it is not
    disabled. *)
Definition step (r : Running) (e : Event) : Running :=
  match e with
  | Click =>
      if (List.length (files (component r)) =? 0)%nat
         || disabled (status (component r))
      then r
      else
        match generateTests_start (component r) with
        | (c', true) => mkRunning c' (S (in_flight r))
        | (c', false) => mkRunning c' (in_flight r)
        end
  | Settle fr =>
      match in_flight r with
      | O => r
      | S n => mkRunning (generateTests_resume fr (component r)) n
      end
  end.

Definition run (fs : list FileUpload.UploadedFile) (events : list Event)
  : Running :=
  fold_left step events (mkRunning (initial fs) 0).

End Api.

(** ** TestGeneration.tsx, the two versions that simulate the workflow *)

Module Simulated.
Import TestGeneration.

(** An entry of the [steps] array. *)
Record Step : Type := mkStep {
  step_id : TestStatus;
  label : string;
  step_progress : nat
}.

(** Component state, the [files] prop, the arguments [onTestGenerated] has
    been called with, and the calls of [generateTests] that wait on
    [setTimeout(resolve, 2000)].  A waiting call is the index of the loop
    iteration it is in; the delays are equal, so the timers fire in the
    order in which they were set, the head of [waiting] first. *)
Record Component : Type := mkComponent {
  files : list FileUpload.UploadedFile;
  status : TestStatus;
  progress : nat;
  currentStep : string;
  results : Js.Value;
  onTestGenerated_calls : list Js.Value;
  waiting : list nat
}.

Definition initial (fs : list FileUpload.UploadedFile) : Component :=
  mkComponent fs idle 0 "" Js.Null [] [].

Definition setStatus (s : TestStatus) (c : Component) : Component :=
  mkComponent (files c) s (progress c) (currentStep c) (results c)
    (onTestGenerated_calls c) (waiting c).
Definition setProgress (p : nat) (c : Component) : Component :=
  mkComponent (files c) (status c) p (currentStep c) (results c)
    (onTestGenerated_calls c) (waiting c).
Definition setCurrentStep (s : string) (c : Component) : Component :=
  mkComponent (files c) (status c) (progress c) s (results c)
    (onTestGenerated_calls c) (waiting c).
Definition setResults (v : Js.Value) (c : Component) : Component :=
  mkComponent (files c) (status c) (progress c) (currentStep c) v
    (onTestGenerated_calls c) (waiting c).
Definition onTestGenerated (v : Js.Value) (c : Component) : Component :=
  mkComponent (files c) (status c) (progress c) (currentStep c) (results c)
    (onTestGenerated_calls c ++ [v]) (waiting c).
Definition await (k : nat) (c : Component) : Component :=
  mkComponent (files c) (status c) (progress c) (currentStep c) (results c)
    (onTestGenerated_calls c) (waiting c ++ [k]).
Definition wake (c : Component) : Component :=
  mkComponent (files c) (status c) (progress c) (currentStep c) (results c)
    (onTestGenerated_calls c) (tl (waiting c)).

Section Version.
(** The [steps] array and the object passed to [setResults] and
    [onTestGenerated]. *)
Variable steps : list Step.
Variable finalResults : Js.Value.

(** [generateTests] from the head of loop iteration [k] to the next
    [await], or to its end when the loop is over.  Nothing in the [try]
    block throws, so the [catch] block is never entered. *)
Definition iteration (k : nat) (c : Component) : Component :=
  match nth_error steps k with
  | Some step =>
      let c := setCurrentStep (label step) c in
      let c := setStatus (step_id step) c in
      let c := setProgress (step_progress step) c in
      await k c
  | None =>
      let c := setResults finalResults c in
      let c := setStatus completed c in
      onTestGenerated finalResults c
  end.

Definition generateTests (c : Component) : Component :=
  let c := setStatus generating c in
  let c := setProgress 0 c in
  iteration 0 c.

Inductive Event : Type :=
| Click      (* the user presses the Generate button *)
| Timeout.   (* the earliest pending timer fires *)

Definition step (c : Component) (e : Event) : Component :=
  match e with
  | Click =>
      if (List.length (files c) =? 0)%nat || disabled (status c)
      then c
      else generateTests c
  | Timeout =>
      match waiting c with
      | [] => c
      | k :: _ => iteration (S k) (wake c)
      end
  end.

Definition run (fs : list FileUpload.UploadedFile) (events : list Event)
  : Component :=
  fold_left step events (initial fs).

(** Calls of [generateTests] that have started and not finished. *)
Definition in_flight (c : Component) : nat := List.length (waiting c).

End Version.

(** The version with four steps and mock results. *)
Module FourStep.
Definition steps : list Step :=
  [ mkStep generating "Generating Tests with Gemini AI" 25;
    mkStep parsing "Parsing Response & Extracting Scripts" 50;
    mkStep running "Compiling & Running Unit Tests" 75;
    mkStep completed "Generating Coverage Report" 100 ].

Definition mockResults : Js.Value :=
  Js.Obj
    [ ("testsGenerated", Js.Num (12 # 1));
      ("testsPassed", Js.Num (10 # 1));
      ("testsFailed", Js.Num (2 # 1));
      ("coverage", Js.Num (171 # 2));
      ("executionTime", Js.Str "2.34s");
      ("failedTests",
        Js.Arr
          [ Js.Obj [ ("name", Js.Str "test_divide_by_zero");
                     ("error",
                      Js.Str "Assertion failed: Expected 0, got inf") ];
            Js.Obj [ ("name", Js.Str "test_null_pointer");
                     ("error", Js.Str "Segmentation fault") ] ]);
      ("excelReport", Js.Str "unit_tests_report.xlsx");
      ("coverageReport", Js.Str "coverage_report.html") ].

Definition generateTests := generateTests steps mockResults.
Definition step := step steps mockResults.
Definition run := run steps mockResults.
End FourStep.

(** The version with two steps, named [TestGeneration.tsx]. *)
Module TwoStep.
Definition steps : list Step :=
  [ mkStep generating "Generating Tests with Gemini AI" 50;
    mkStep parsing "Test Generation Complete" 100 ].

Definition finalResults : Js.Value :=
  Js.Obj [ ("generated", Js.Bool true) ].

Definition generateTests := generateTests steps finalResults.
Definition step := step steps finalResults.
Definition run := run steps finalResults.
End TwoStep.

End Simulated.

(** ** The extraction core behind [/generate_tests]

    The backend ([generateUnitTest.py], [app.py]) is not among the sources
    at hand; its parsers and reconciler are written out here from the
    specification. *)

Module Core.

(** Modelled from the spec: the [category] of a TestCaseRecord (the
    backend's record type is missing). *)
Inductive Category : Type := positive | negative | boundary | error.

(** Modelled from the spec: TestCaseRecord, section 3 (the backend's
    record type is missing). *)
Record TestCaseRecord : Type := mkTestCaseRecord {
  id : string;
  function_name : string;
  description : string;
  input_data : string;
  expected_output : string;
  category : Category;
  test_code : string
}.

(** Modelled from the spec: the ParseIssue recorded for a dropped record
    (the backend's parsers are missing): which record of the candidate, and
    which required field it lacks. *)
Record ParseIssue : Type := mkParseIssue {
  issue_position : nat;
  lacks_function_name : bool;
  lacks_test_code : bool
}.

(** Modelled from the spec: a record as a candidate parser meets it, a map
    from field names to text (the backend's parsers are missing). *)
Definition RawRecord : Type := list (string * string).

(** Modelled from the spec: the text of a field of a raw record, absent
    when the map has no such field (the backend's parsers are missing). *)
Fixpoint field (k : string) (raw : RawRecord) : option string :=
  match raw with
  | [] => None
  | (k', v) :: rest => if String.eqb k k' then Some v else field k rest
  end.

(** Modelled from the spec: the best-effort default of a textual field,
    "missing description becomes empty string" (the backend's parsers are
    missing). *)
Definition text (k : string) (raw : RawRecord) : string :=
  match field k raw with
  | Some v => v
  | None => ""
  end.

(** Modelled from the spec: "case-insensitive" (the reconciler is missing):
an upper-case ASCII letter. *)
Definition is_upper (c : ascii) : bool :=
  (65 <=? nat_of_ascii c)%nat && (nat_of_ascii c <=? 90)%nat.

(** Modelled from the spec: "case-insensitive" (the reconciler is missing):
the lower-case form of a character. *)
Definition lower (c : ascii) : ascii :=
  if is_upper c then ascii_of_nat (nat_of_ascii c + 32) else c.

(** Modelled from the spec: "whitespace-collapsed" (the reconciler is
missing): space, tab, line feed, vertical tab, form feed, carriage
return. *)
Definition is_space (c : ascii) : bool :=
  let n := nat_of_ascii c in
  (n =? 32)%nat || ((9 <=? n)%nat && (n <=? 13)%nat).

(** Modelled from the spec: "case-insensitive, whitespace-collapsed"
    (the reconciler is missing): letters are lowered and every run of
    whitespace becomes one space. *)
Fixpoint collapse (after_space : bool) (s : string) : string :=
  match s with
  | EmptyString => EmptyString
  | String c rest =>
      if is_space c then
        if after_space then collapse true rest
        else String " "%char (collapse true rest)
      else String (lower c) (collapse false rest)
  end.

(** Modelled from the spec: the normal form of one component of the dedup
    key (the reconciler is missing). *)
Definition normalize (s : string) : string := collapse false s.

(** Modelled from the spec: "dedup key = normalized (function_name,
    description) pair", section 4.3 step 1 (the reconciler is missing). *)
Definition dedup_key (r : TestCaseRecord) : string * string :=
  (normalize (function_name r), normalize (description r)).

(** Modelled from the spec: "shares its dedup key" (the reconciler is
missing): equality of two dedup keys. *)
Definition key_eqb (a b : string * string) : bool :=
  String.eqb (fst a) (fst b) && String.eqb (snd a) (snd b).

(** Modelled from the spec: whether the working list already holds a
    record with the dedup key of [r] (the reconciler is missing). *)
Definition shares_key (r : TestCaseRecord) (working : list TestCaseRecord)
  : bool :=
  existsb (fun r' => key_eqb (dedup_key r') (dedup_key r)) working.

(** Modelled from the spec: section 4.3 step 2, a record "is accepted only
    if no existing record shares its dedup key" (the reconciler is
    missing). *)
Definition accept (working : list TestCaseRecord) (r : TestCaseRecord)
  : list TestCaseRecord :=
  if shares_key r working then working else working ++ [r].

(** Modelled from the spec: section 4.3 step 1, "walk candidates in
    priority order; accumulate records into a working list" (the
    reconciler is missing). *)
Definition accumulate (candidates : list (list TestCaseRecord))
  : list TestCaseRecord :=
  fold_left (fun working candidate => fold_left accept candidate working)
            candidates [].

(** Modelled from the spec: the identifier of the record at 1-based
    position [n], "TC_001", "TC_002", ... (the reconciler is missing). *)
Definition tc_id (n : nat) : string :=
  "TC_" ++ Js.padStart (Js.String_of_nat n) 3 "0".

(** Modelled from the spec: "IDs are reconciler-assigned" (the reconciler
is missing): a record with its [id] replaced and nothing else. *)
Definition with_id (i : string) (r : TestCaseRecord) : TestCaseRecord :=
  mkTestCaseRecord i (function_name r) (description r) (input_data r)
    (expected_output r) (category r) (test_code r).

(** Modelled from the spec: section 4.3 step 4, "assign sequential IDs in
    final-list order" (the reconciler is missing); [n] is the position of
    the head of the list. *)
Fixpoint assign_ids (n : nat) (rs : list TestCaseRecord)
  : list TestCaseRecord :=
  match rs with
  | [] => []
  | r :: rest => with_id (tc_id n) r :: assign_ids (S n) rest
  end.

(** Modelled from the spec: section 4.3 step 6, "the set of distinct
    function_name values in the final list, in first-seen order" (the
    reconciler is missing). *)
Definition functions_tested (rs : list TestCaseRecord) : list string :=
  fold_left
    (fun seen r =>
       if existsb (String.eqb (function_name r)) seen then seen
       else seen ++ [function_name r])
    rs [].

(** Modelled from the spec: the summary of a TestArtifactBundle, section 3
    (the backend's bundle type is missing). *)
Record Summary : Type := mkSummary {
  total_tests : nat;
  summary_functions_tested : list string;
  coverage_areas : list string
}.

(** Modelled from the spec: TestArtifactBundle, section 3 (the backend's
    bundle type is missing). *)
Record TestArtifactBundle : Type := mkBundle {
  test_cases : list TestCaseRecord;
  runner_script : option string;
  build_script : option string;
  summary : Summary
}.

(** Modelled from the spec: the terminal condition of section 4.3 step 5
    (the reconciler is missing). *)
Inductive Reconciled : Type :=
| Bundle (b : TestArtifactBundle)
| NoExtractableTestCases.

(** Modelled from the spec: the bundle built around a final list; its
    summary is computed from the list (the reconciler is missing).  The
    scripts and coverage areas are the payload found beside the test
    cases. *)
Definition bundle_of (final : list TestCaseRecord)
                     (runner build : option string) (areas : list string)
  : TestArtifactBundle :=
  mkBundle final runner build
           (mkSummary (List.length final) (functions_tested final) areas).

(** Modelled from the spec: the ParseReconciler, section 4.3 (the
    reconciler is missing): accumulate, number, and report an empty final
    list as [NoExtractableTestCases]. *)
Definition reconcile (candidates : list (list TestCaseRecord))
                     (runner build : option string) (areas : list string)
  : Reconciled :=
  match assign_ids 1 (accumulate candidates) with
  | [] => NoExtractableTestCases
  | final => Bundle (bundle_of final runner build areas)
  end.

Section Parser.
(** Modelled from the spec: "malformed fields degrade to best-effort
defaults" (the backend's parsers are missing); which category a record
gets whose text names none is left open there, and is a parameter. *)
Variable default_category : Category.

(** Modelled from the spec: the category a field text names, read
    case-insensitively (the backend's parsers are missing). *)
Definition category_of (s : string) : Category :=
  let n := normalize s in
  if String.eqb n "positive" then positive
  else if String.eqb n "negative" then negative
  else if String.eqb n "boundary" then boundary
  else if String.eqb n "error" then error
  else default_category.

(** Modelled from the spec: section 4.2, one record of a candidate:
    "missing test_code or function_name causes that single record to be
    dropped with a recorded issue", every other field degrades to its
    default (the backend's parsers are missing). *)
Definition parse_record (position : nat) (raw : RawRecord)
  : TestCaseRecord + ParseIssue :=
  let fn := text "function_name" raw in
  let code := text "test_code" raw in
  if String.eqb fn "" || String.eqb code "" then
    inr (mkParseIssue position (String.eqb fn "") (String.eqb code ""))
  else
    inl (mkTestCaseRecord (text "id" raw) fn (text "description" raw)
           (text "input_data" raw) (text "expected_output" raw)
           (category_of (text "category" raw)) code).

(** Modelled from the spec: section 4.2, [parse(candidate) -> (records,
    errors)] over the records of a candidate from position [position]
    on (the backend's parsers are missing). *)
Fixpoint parse_from (position : nat) (raws : list RawRecord)
  : list TestCaseRecord * list ParseIssue :=
  match raws with
  | [] => ([], [])
  | raw :: rest =>
      let (records, issues) := parse_from (S position) rest in
      match parse_record position raw with
      | inl r => (r :: records, issues)
      | inr i => (records, i :: issues)
      end
  end.

(** Modelled from the spec: section 4.2, [parse(candidate)] (the backend's
parsers are missing). *)
Definition parse (raws : list RawRecord)
  : list TestCaseRecord * list ParseIssue :=
  parse_from 0 raws.

End Parser.

End Core.

(** ** FileUpload.tsx: the event handlers *)

Module FileUploadEvents.
Import FileUpload.

Definition setDragActive (b : bool) (st : State) : State :=
  mkState (files st) b (onFilesChange_calls st).

(** [e.type] of the events [handleDrag] is attached to ([onDragEnter],
    [onDragLeave], [onDragOver]). *)
Inductive DragType : Type := dragenter | dragover | dragleave.

Definition handleDrag (ty : DragType) (st : State) : State :=
  match ty with
  | dragenter | dragover => setDragActive true st
  | dragleave => setDragActive false st
  end.

(** [processFiles] as a closure: the body reads the [files] of the render
    that created it, here [captured]. *)
Definition processFiles_of (captured : list UploadedFile)
                           (random : nat -> string) (fileList : list File)
                           (st : State) : State :=
  let updatedFiles := captured ++ newFiles random 0 fileList in
  onFilesChange updatedFiles (setFiles updatedFiles st).

(** [handleFileInput] is created anew by every render and so calls the
    [processFiles] of the current one; [e.target.files] is [null] ([None])
    or the list of chosen files. *)
Definition handleFileInput (random : nat -> string)
                           (target_files : option (list File)) (st : State)
  : State :=
  match target_files with
  | Some selectedFiles => processFiles random selectedFiles st
  | None => st
  end.

(** [handleDrop] is wrapped in [useCallback(..., [])]: the component keeps
    the handler of its first render, and the [processFiles] that handler
    calls reads the [files] of the first render, the initial state. *)
Definition handleDrop (random : nat -> string) (droppedFiles : list File)
                      (st : State) : State :=
  let st := setDragActive false st in
  processFiles_of (files initial) random droppedFiles st.

(** What the user can do to the component. *)
Inductive Event : Type :=
| Drag (ty : DragType)
| Drop (random : nat -> string) (droppedFiles : list File)
| Input (random : nat -> string) (target_files : option (list File))
| Remove (id0 : string).

Definition handle (st : State) (e : Event) : State :=
  match e with
  | Drag ty => handleDrag ty st
  | Drop random droppedFiles => handleDrop random droppedFiles st
  | Input random target_files => handleFileInput random target_files st
  | Remove id0 => removeFile id0 st
  end.

Definition run (events : list Event) : State :=
  fold_left handle events initial.

End FileUploadEvents.

(** ** Index.tsx *)

Module Index.

(** The state of the page. *)
Record State : Type := mkState {
  uploadedFiles : list FileUpload.UploadedFile;
  testResults : Js.Value
}.

Definition initial : State := mkState [] Js.Null.

Definition handleFilesChange (fs : list FileUpload.UploadedFile)
                             (st : State) : State :=
  mkState fs (testResults st).

Definition handleTestGenerated (results : Js.Value) (st : State) : State :=
  mkState (uploadedFiles st) results.

(** The three figures of the "Test Generation Complete!" banner. *)
Record Banner : Type := mkBanner {
  testsGenerated : Js.Value;
  coverage : Js.Value;
  executionTime : Js.Value
}.

(** [testResults && (<div> ... </div>)]: [None] when the banner is not
    rendered. *)
Definition banner (st : State) : option Banner :=
  if Js.truthy (testResults st) then
    match Js.get (testResults st) "testsGenerated",
          Js.get (testResults st) "coverage",
          Js.get (testResults st) "executionTime" with
    | Some t, Some c, Some e => Some (mkBanner t c e)
    | _, _, _ => None
    end
  else None.

(** The page after the upload component has called [onFilesChange] with
    each of [calls] in turn. *)
Definition after_files_changes (calls : list (list FileUpload.UploadedFile))
                               (st : State) : State :=
  fold_left (fun s fs => handleFilesChange fs s) calls st.

(** The page after the generation component has called [onTestGenerated]
    with each of [calls] in turn. *)
Definition after_tests_generated (calls : list Js.Value) (st : State)
  : State :=
  fold_left (fun s v => handleTestGenerated v s) calls st.

End Index.

(** ** TestGeneration.tsx: what the versions render *)

Module View.
Import TestGeneration.

Inductive Icon : Type := Loader2 | CheckCircle | XCircle.

(** [getStatusIcon] of the backend-calling and the two-step version. *)
Definition getStatusIcon (status : TestStatus) : option Icon :=
  match status with
  | generating | parsing => Some Loader2
  | completed => Some CheckCircle
  | failed => Some XCircle
  | _ => None
  end.

(** [getStatusIcon] of the four-step version. *)
Definition getStatusIcon_four_step (status : TestStatus) : option Icon :=
  match status with
  | generating | parsing | running => Some Loader2
  | completed => Some CheckCircle
  | failed => Some XCircle
  | _ => None
  end.

Record Badge : Type := mkBadge {
  variant : string;
  text : string
}.

(** [getStatusBadge] of the backend-calling and the two-step version:
    [configs[status] || configs.idle], where [configs] has no entry for
    ['running']. *)
Definition getStatusBadge (status : TestStatus) : Badge :=
  match status with
  | idle => mkBadge "secondary" "Ready"
  | generating => mkBadge "default" "Generating..."
  | parsing => mkBadge "default" "Parsing..."
  | completed => mkBadge "success" "Completed"
  | failed => mkBadge "destructive" "Failed"
  | running => mkBadge "secondary" "Ready"
  end.

Definition type_eqb (a b : FileUpload.FileType) : bool :=
  match a, b with
  | FileUpload.source, FileUpload.source
  | FileUpload.header, FileUpload.header => true
  | _, _ => false
  end.

(** [files.filter(f => f.type === 'source').length] *)
Definition sourceCount (files : list FileUpload.UploadedFile) : nat :=
  List.length
    (filter (fun f => type_eqb (FileUpload.type f) FileUpload.source) files).

(** [files.filter(f => f.type === 'header').length] *)
Definition headerCount (files : list FileUpload.UploadedFile) : nat :=
  List.length
    (filter (fun f => type_eqb (FileUpload.type f) FileUpload.header) files).

(** [v?.k] *)
Definition opt_get (v : Js.Value) (k : string) : option Js.Value :=
  match v with
  | Js.Undefined | Js.Null => Some Js.Undefined
  | _ => Js.get v k
  end.

(** [status !== 'idle' &&] in front of the progress bar. *)
Definition showProgress (c : Api.Component) : bool :=
  negb (status_eqb (Api.status c) idle).

(** [results && status === 'completed'] in front of the results panel. *)
Definition showResults (c : Api.Component) : bool :=
  Js.truthy (Api.results c) && status_eqb (Api.status c) completed.

(** An entry of the test-case list in the "Generated Test Scripts"
    dialog. *)
Record ScriptEntry : Type := mkScriptEntry {
  entry_function_name : Js.Value;
  entry_test_code : Js.Value
}.

(** The callback given to [testScripts.test_cases?.map]; [None] is the
    [TypeError] of reading a property of [null] or [undefined]. *)
Definition scriptEntry (testCase : Js.Value) : option ScriptEntry :=
  match Js.get testCase "function_name", Js.get testCase "test_code" with
  | Some f, Some t => Some (mkScriptEntry f t)
  | _, _ => None
  end.

Fixpoint mapEntries (items : list Js.Value) : option (list ScriptEntry) :=
  match items with
  | [] => Some []
  | testCase :: rest =>
      match scriptEntry testCase, mapEntries rest with
      | Some e, Some es => Some (e :: es)
      | _, _ => None
      end
  end.

(** [v?.map(callback) || <placeholder>] as an expression evaluated while
    the component renders: [None] when it throws a [TypeError] ([v] has no
    [map] method, or the callback throws), [Some None] for the
    placeholder. *)
Definition map_or_placeholder {A : Type}
           (callback : list Js.Value -> option (list A)) (v : Js.Value)
  : option (option (list A)) :=
  match v with
  | Js.Undefined | Js.Null => Some None
  | Js.Arr items => option_map Some (callback items)
  | _ => None
  end.

(** The body of the "Generated Test Scripts" dialog when [testScripts] is
    truthy. *)
Record Scripts : Type := mkScripts {
  runner_text : Js.Value;
  makefile_text : Js.Value;
  entries : option (list ScriptEntry)
}.

(** [testScripts ? (...) : <placeholder>]; the outer [None] is a
    [TypeError], the inner one the placeholder. *)
Definition scriptsView (testScripts : Js.Value) : option (option Scripts) :=
  if Js.truthy testScripts then
    match Js.get testScripts "test_runner_script",
          Js.get testScripts "makefile_content",
          Js.get testScripts "test_cases" with
    | Some rs, Some mk, Some tcs =>
        match map_or_placeholder mapEntries tcs with
        | Some es =>
            Some (Some (mkScripts
                          (Js.or_else rs
                             (Js.Str "No test runner script available"))
                          (Js.or_else mk (Js.Str "No makefile available"))
                          es))
        | None => None
        end
    | _, _, _ => None
    end
  else Some None.

(** The results panel as the component's render function builds it: the
    rows of the report dialog ([None]: its placeholder), the body of the
    scripts dialog, and whether each download button is there
    ([results.csv_content &&], [testScripts?.test_runner_script &&],
    [testScripts?.makefile_content &&]). *)
Record Panel : Type := mkPanel {
  report : option (list Row);
  scripts : option Scripts;
  csvDownload : bool;
  runnerDownload : bool;
  makefileDownload : bool
}.

(** The panel; [None] when building it throws a [TypeError]. *)
Definition panel (c : Api.Component) : option Panel :=
  match map_or_placeholder (fun items => mapRows items 0) (Api.excelData c),
        scriptsView (Api.testScripts c),
        Js.get (Api.results c) "csv_content",
        opt_get (Api.testScripts c) "test_runner_script",
        opt_get (Api.testScripts c) "makefile_content" with
  | Some rows, Some sc, Some csv, Some rs, Some mk =>
      Some (mkPanel rows sc (Js.truthy csv) (Js.truthy rs) (Js.truthy mk))
  | _, _, _, _, _ => None
  end.

(** What the render function of the component comes to: it throws, or
    returns the hint to upload files ([files.length === 0]), or returns
    the button with the progress section and the results panel, each
    present or not.  React checks the children of a dialog only when the
    dialog is opened; that is [renderExcelData]'s part, not this one's. *)
Inductive Screen : Type :=
| RenderThrows
| UploadHint
| Main (progressSection : bool) (resultsPanel : option Panel).

Definition render (c : Api.Component) : Screen :=
  if (List.length (Api.files c) =? 0)%nat then UploadHint
  else if showResults c then
    match panel c with
    | Some p => Main (showProgress c) (Some p)
    | None => RenderThrows
    end
  else Main (showProgress c) None.

End View.

(** ** Notions used to state the properties *)

(** The number an identifier of the form [TC_<digits>] carries. *)
Definition id_number (s : string) : option nat :=
  match s with
  | String "T" (String "C" (String "_" digits)) =>
      option_map Nat.of_uint (NilEmpty.uint_of_string digits)
  | _ => None
  end.

(** A test case as a structured block holds it: an object. *)
Definition is_object (v : Js.Value) : Prop := exists props, v = Js.Obj props.

(** A well-formed test case: an object whose [function_name],
    [description] and [expected_result], where it has them, are values
    React can show (text, numbers, ...), not objects. *)
Definition is_test_case (v : Js.Value) : Prop :=
  exists props,
    v = Js.Obj props
    /\ TestGeneration.valid_child (Js.lookup "function_name" props) = true
    /\ TestGeneration.valid_child (Js.lookup "description" props) = true
    /\ TestGeneration.valid_child (Js.lookup "expected_result" props)
       = true.

(** [n] times the character ['0']. *)
Fixpoint zeros (n : nat) : string :=
  match n with
  | O => EmptyString
  | S n' => String "0" (zeros n')
  end.

(** The number a string of decimal digits denotes. *)
Definition decimal_value (digits : string) : option nat :=
  option_map Nat.of_uint (NilEmpty.uint_of_string digits).

(** [null] or [undefined]. *)
Definition is_nullish (v : Js.Value) : bool :=
  match v with
  | Js.Undefined | Js.Null => true
  | _ => false
  end.

(** An array none of whose entries is [null] or [undefined]. *)
Definition clean_array (v : Js.Value) : bool :=
  match v with
  | Js.Arr items => forallb (fun x => negb (is_nullish x)) items
  | _ => false
  end.

(** Whether showing the row of an entry throws. *)
Definition entry_throws (v : Js.Value) (index : nat) : bool :=
  match TestGeneration.renderRow v index with
  | Some r => negb (TestGeneration.row_shows r)
  | None => true
  end.

(** Whether showing the rows of an array throws. *)
Definition report_throws (items : list Js.Value) (index : nat) : bool :=
  match TestGeneration.mapRows items index with
  | Some rows => negb (forallb TestGeneration.row_shows rows)
  | None => true
  end.

(** An entry of the report data that cannot be shown: it is [null] or
    [undefined], or one of the three fields the row shows holds a value
    React rejects. *)
Definition bad_entry (v : Js.Value) : Prop :=
  is_nullish v = true
  \/ exists k field,
       In k ["function_name"; "description"; "expected_result"]%string
       /\ Js.get v k = Some field
       /\ TestGeneration.valid_child field = false.

(** A settled call that is a success carrying data: a response with [ok]
    set whose body has [status === 'success'] and a truthy [data]. *)
Definition success_with_data (fr : Api.FetchResult) : bool :=
  match fr with
  | Api.Response true _ (Some response) =>
      match Js.get response "status", Js.get response "data" with
      | Some st, Some d => Js.strict_eq_str st "success" && Js.truthy d
      | _, _ => false
      end
  | _ => false
  end.

(** The component a successful call of [generateTests] leaves behind. *)
Definition succeeded (d tc rs mk : Js.Value) (c : Api.Component)
  : Api.Component :=
  Api.onTestGenerated d
    (Api.setStatus TestGeneration.completed
       (Api.setTestScripts
          (Js.Obj
             [("test_runner_script", Js.or_else rs (Js.Str ""));
              ("makefile_content", Js.or_else mk (Js.Str ""));
              ("test_cases", Js.or_else tc (Js.Arr []))])
          (Api.setExcelData (Js.or_else tc (Js.Arr []))
             (Api.setResults d
                (Api.setProgress 100
                   (Api.setStatus TestGeneration.parsing
                      (Api.setCurrentStep "Test Generation Complete" c))))))).

(** The first record of a list that has dedup key [k]. *)
Definition first_with_key (k : string * string)
                          (rs : list Core.TestCaseRecord)
  : option Core.TestCaseRecord :=
  find (fun r => Core.key_eqb (Core.dedup_key r) k) rs.

(** The position at which a name first occurs in a list (the length of the
    list when it does not occur). *)
Fixpoint index_of (x : string) (l : list string) : nat :=
  match l with
  | [] => 0
  | y :: rest => if String.eqb x y then 0 else S (index_of x rest)
  end.

(** [kept] is [all] with some elements left out, the others in place. *)
Inductive subsequence {A : Type} : list A -> list A -> Prop :=
| sub_nil : subsequence [] []
| sub_keep x kept all :
    subsequence kept all -> subsequence (x :: kept) (x :: all)
| sub_drop x kept all :
    subsequence kept all -> subsequence kept (x :: all).

(** ** Invariants of the running components *)

(** Between events the backend-calling component either has no call
    waiting and an enabled button, or one call waiting in status
    ['generating']. *)
Definition api_invariant (r : Api.Running) : Prop :=
  (Api.in_flight r = 0
   /\ TestGeneration.disabled (Api.status (Api.component r)) = false)
  \/ (Api.in_flight r = 1
      /\ Api.status (Api.component r) = TestGeneration.generating).

(** Between events the two-step simulation has no call waiting and an
    enabled button, or one call waiting: in iteration 0 with status
    ['generating'] or in iteration 1 with status ['parsing']. *)
Definition two_step_invariant (c : Simulated.Component) : Prop :=
  (Simulated.waiting c = []
   /\ TestGeneration.disabled (Simulated.status c) = false)
  \/ (Simulated.waiting c = [0]
      /\ Simulated.status c = TestGeneration.generating)
  \/ (Simulated.waiting c = [1]
      /\ Simulated.status c = TestGeneration.parsing).

(** Every request is accounted for: it was answered by a call of
    [onTestGenerated], or by a logged failure, or is still awaited. *)
Definition api_accounted (r : Api.Running) : Prop :=
  List.length (Api.requests (Api.component r))
  = List.length (Api.onTestGenerated_calls (Api.component r))
    + List.length (Api.console (Api.component r))
    + Api.in_flight r.

(** The four situations the component can be seen in between events. *)
Definition api_observable (r : Api.Running) : Prop :=
  let c := Api.component r in
  (Api.status c = TestGeneration.idle /\ Api.in_flight r = 0
   /\ Api.progress c = 0 /\ Api.currentStep c = ""
   /\ Api.results c = Js.Null)
  \/ (Api.status c = TestGeneration.generating /\ Api.in_flight r = 1
      /\ Api.progress c = 50
      /\ Api.currentStep c = "Generating Tests with Gemini AI")
  \/ (Api.status c = TestGeneration.completed /\ Api.in_flight r = 0
      /\ Api.progress c = 100
      /\ Api.currentStep c = "Test Generation Complete"
      /\ Js.truthy (Api.results c) = true)
  \/ (Api.status c = TestGeneration.failed /\ Api.in_flight r = 0
      /\ Api.progress c = 50 /\ Api.currentStep c = "Generation failed").

(** The component just before the awaited call settles. *)
Definition awaiting (c : Api.Component) : Api.Component :=
  Api.post (map Api.toFileData (Api.files c))
    (Api.setProgress 50
       (Api.setCurrentStep "Generating Tests with Gemini AI"
          (Api.setProgress 25
             (Api.setCurrentStep "Uploading files..."
                (Api.setProgress 0 (Api.setStatus TestGeneration.generating c)))))).

(** What every state of a simulated version satisfies when no step is
    named ['failed']. *)
Definition simulated_invariant (finalResults : Js.Value)
                               (c : Simulated.Component) : Prop :=
  Simulated.status c <> TestGeneration.failed
  /\ Forall (eq finalResults) (Simulated.onTestGenerated_calls c)
  /\ (Simulated.results c = Js.Null
      \/ Simulated.results c = finalResults).

(** ** Sample inputs *)

Definition one_file : list FileUpload.UploadedFile :=
  [ FileUpload.mkUploadedFile "k3x9a0b1c" "stack.c" 120 FileUpload.source
      (Some "int top(void);") ].

Definition error_response : Api.FetchResult :=
  Api.Response true "OK"
    (Some (Js.Obj [ ("status", Js.Str "error");
                    ("message", Js.Str "No test cases parsed") ])).

Definition three_test_cases : list Js.Value :=
  [ Js.Obj [ ("id", Js.Str "TC_042");
             ("function_name", Js.Str "test_push");
             ("description", Js.Str "push on empty stack");
             ("test_code", Js.Str "void test_push(void) {}") ];
    Js.Obj [ ("id", Js.Str "TC_042");
             ("function_name", Js.Str "test_pop");
             ("description", Js.Str "pop returns last") ];
    Js.Obj [ ("function_name", Js.Str "test_top") ] ].

Definition structured_candidate : list Core.TestCaseRecord :=
  [ Core.mkTestCaseRecord "7" "test_push" "Push on  empty stack" "1" "ok"
      Core.positive "void test_push(void) { TEST_ASSERT(push(1)); }";
    Core.mkTestCaseRecord "7" "test_pop" "pop returns last" "" "1"
      Core.positive "void test_pop(void) { TEST_ASSERT(pop() == 1); }" ].

Definition tabular_candidate : list Core.TestCaseRecord :=
  [ Core.mkTestCaseRecord "" "TEST_PUSH" "push on empty	stack" "" ""
      Core.negative "void test_push(void) {}";
    Core.mkTestCaseRecord "" "test_top" "top of stack" "" ""
      Core.boundary "void test_top(void) {}" ].

Definition success_response : Api.FetchResult :=
  Api.Response true "OK"
    (Some (Js.Obj
       [ ("status", Js.Str "success");
         ("data",
          Js.Obj [ ("test_cases", Js.Arr three_test_cases);
                   ("test_runner_script", Js.Str "int main(void) {}") ]) ])).

Definition two_files : list FileUpload.File :=
  [ FileUpload.mkFile "stack.c" 120 "int top(void);";
    FileUpload.mkFile "stack.h" 40 "int top(void);" ].

(** A stand-in for the strings [Math.random] yields: the decimal numeral
    of the draw. *)
Definition sample_random (k : nat) : string :=
  Js.String_of_nat k.

Definition two_uploaded : FileUpload.State :=
  FileUpload.processFiles sample_random two_files FileUpload.initial.

(** * Properties *)

(** ** Identifiers *)

Lemma digits_leading_zero (s : string) :
  option_map Nat.of_uint (NilEmpty.uint_of_string (String "0" s))
  = option_map Nat.of_uint (NilEmpty.uint_of_string s).
Proof.
  simpl. destruct (NilEmpty.uint_of_string s) as [d|]; reflexivity.
Qed.

Lemma digits_fill_zero (k : nat) (cur s : string) :
  cur = "" \/ cur = "0" ->
  option_map Nat.of_uint (NilEmpty.uint_of_string (Js.fill k "0" cur ++ s)%string)
  = option_map Nat.of_uint (NilEmpty.uint_of_string s).
Proof.
  revert cur. induction k as [|k IH]; intros cur Hcur; [reflexivity|].
  destruct Hcur as [-> | ->]; cbn [Js.fill append];
    rewrite digits_leading_zero; apply IH; now left.
Qed.

Lemma digits_String_of_nat (n : nat) :
  option_map Nat.of_uint (NilEmpty.uint_of_string (Js.String_of_nat n))
  = Some n.
Proof.
  unfold Js.String_of_nat. rewrite NilEmpty.usu. simpl.
  now rewrite DecimalNat.Unsigned.of_to.
Qed.

Lemma id_number_padStart (n : nat) :
  id_number ("TC_" ++ Js.padStart (Js.String_of_nat n) 3 "0")%string = Some n.
Proof.
  cbn [append id_number]. unfold Js.padStart.
  destruct (3 <=? String.length (Js.String_of_nat n))%nat.
  - apply digits_String_of_nat.
  - rewrite digits_fill_zero by now right. apply digits_String_of_nat.
Qed.

Lemma id_number_tc_id (n : nat) : id_number (Core.tc_id n) = Some n.
Proof. apply id_number_padStart. Qed.

Example padStart_7 : Js.padStart (Js.String_of_nat 7) 3 "0" = "007".
Proof. reflexivity. Qed.

Example padStart_1234 : Js.padStart (Js.String_of_nat 1234) 3 "0" = "1234".
Proof. reflexivity. Qed.

Section ExcelRows.
Import TestGeneration.

Lemma renderRow_object (row : Js.Value) (index : nat) :
  is_object row ->
  exists r, renderRow row index = Some r
    /\ cell_id r = ("TC_" ++ Js.padStart (Js.String_of_nat (index + 1)) 3 "0")%string.
Proof.
  intros [props ->]. unfold renderRow. cbn [Js.get].
  eexists. split; reflexivity.
Qed.

Lemma mapRows_objects (items : list Js.Value) :
  Forall is_object items ->
  forall index, exists rows,
    mapRows items index = Some rows
    /\ map cell_id rows
       = map (fun i => ("TC_" ++ Js.padStart (Js.String_of_nat i) 3 "0")%string)
             (seq (index + 1) (List.length items)).
Proof.
  induction 1 as [|row rest Hrow _ IH]; intros index.
  - exists []. split; reflexivity.
  - destruct (renderRow_object row index Hrow) as (r & Hr & Hid).
    destruct (IH (S index)) as (rs & Hrs & Hids).
    exists (r :: rs). cbn [mapRows]. rewrite Hr, Hrs. split; [reflexivity|].
    cbn [map seq List.length]. rewrite Hid, Hids. reflexivity.
Qed.

Lemma id_numbers_seq (start len : nat) :
  map id_number
      (map (fun i => ("TC_" ++ Js.padStart (Js.String_of_nat i) 3 "0")%string)
           (seq start len))
  = map Some (seq start len).
Proof.
  rewrite map_map. apply map_ext. intros i. apply id_number_padStart.
Qed.

End ExcelRows.

(** ** [endsWith] *)

Lemma substring_past_prefix (p s : string) (m : nat) :
  substring (String.length p) m (p ++ s)%string = substring 0 m s.
Proof. induction p as [|c p IH]; [reflexivity | exact IH]. Qed.

Lemma substring_whole (s : string) : substring 0 (String.length s) s = s.
Proof. induction s as [|c s IH]; [reflexivity | simpl; now rewrite IH]. Qed.

Lemma substring_split (s : string) (k : nat) :
  k <= String.length s ->
  s = (substring 0 k s ++ substring k (String.length s - k) s)%string.
Proof.
  revert k. induction s as [|c s IH]; intros k Hk.
  - simpl in Hk. assert (k = 0) as -> by lia. reflexivity.
  - destruct k as [|k].
    + cbn [substring append]. rewrite Nat.sub_0_r.
      cbn [String.length substring]. now rewrite substring_whole.
    + cbn [substring append String.length Nat.sub]. f_equal.
      apply IH. simpl in Hk. lia.
Qed.

Lemma length_append (a b : string) :
  String.length (a ++ b)%string = String.length a + String.length b.
Proof. induction a as [|c a IH]; [reflexivity | simpl; now rewrite IH]. Qed.

Lemma endsWith_iff (s suffix : string) :
  Js.endsWith s suffix = true <-> exists p, s = (p ++ suffix)%string.
Proof.
  unfold Js.endsWith. split.
  - destruct (Nat.leb_spec (String.length suffix) (String.length s))
      as [Hle|]; [|discriminate].
    intros H. apply String.eqb_eq in H.
    exists (substring 0 (String.length s - String.length suffix) s).
    pose proof (substring_split s (String.length s - String.length suffix))
      as E.
    replace (String.length s - (String.length s - String.length suffix))
      with (String.length suffix) in E by lia.
    rewrite H in E. apply E. lia.
  - intros [p ->]. rewrite length_append.
    destruct (Nat.leb_spec (String.length suffix)
                           (String.length p + String.length suffix));
      [|lia].
    replace (String.length p + String.length suffix - String.length suffix)
      with (String.length p) by lia.
    rewrite substring_past_prefix, substring_whole. apply String.eqb_refl.
Qed.

Lemma append_assoc (a b c : string) :
  ((a ++ b) ++ c = a ++ (b ++ c))%string.
Proof. induction a as [|x a IH]; [reflexivity | simpl; now rewrite IH]. Qed.

Lemma endsWith_hpp_not_h (p : string) :
  Js.endsWith (p ++ ".hpp") ".h" = false.
Proof.
  unfold Js.endsWith. rewrite length_append.
  cbn [String.length]. replace (String.length p + 4 - 2)
    with (String.length (p ++ ".h")%string)
    by (rewrite length_append; simpl; lia).
  destruct (2 <=? String.length p + 4)%nat; [|reflexivity].
  replace (p ++ ".hpp")%string with ((p ++ ".h") ++ "pp")%string
    by (rewrite append_assoc; reflexivity).
  rewrite substring_past_prefix. reflexivity.
Qed.

Example endsWith_h : Js.endsWith "stack.h" ".h" = true.
Proof. reflexivity. Qed.

Example endsWith_short : Js.endsWith "h" ".h" = false.
Proof. reflexivity. Qed.

(** ** FileUpload *)

Section FileUploadFacts.
Import FileUpload.

Lemma fileType_header_iff (f : File) :
  fileType f = header <-> exists p, file_name f = (p ++ ".h")%string.
Proof.
  unfold fileType. rewrite <- endsWith_iff.
  destruct (Js.endsWith (file_name f) ".h"); split; congruence.
Qed.

Lemma newFiles_fields (random : nat -> string) (fileList : list File) :
  forall k,
    map type (newFiles random k fileList) = map fileType fileList
    /\ map name (newFiles random k fileList) = map file_name fileList
    /\ map FileUpload.size (newFiles random k fileList)
       = map file_size fileList.
Proof.
  induction fileList as [|file rest IH]; intros k.
  - repeat split.
  - destruct (IH (S k)) as (Ht & Hn & Hs). cbn [newFiles map].
    rewrite Ht, Hn, Hs. repeat split.
Qed.

End FileUploadFacts.

(** C8: a file handled by the upload component gets type ['header'] exactly
    when its name ends with [".h"], and ['source'] otherwise; the entries
    [processFiles] appends carry these types, in the order of the chosen
    files; a name ending in [".hpp"] passes the [accept] list of the file
    chooser and is typed ['source']. *)
Theorem file_type_by_suffix :
  (forall f : FileUpload.File,
      (FileUpload.fileType f = FileUpload.header
       <-> exists p, FileUpload.file_name f = (p ++ ".h")%string)
      /\ (FileUpload.fileType f = FileUpload.source
          <-> ~ exists p, FileUpload.file_name f = (p ++ ".h")%string))
  /\ (forall random fileList st,
        exists added,
          FileUpload.files (FileUpload.processFiles random fileList st)
          = FileUpload.files st ++ added
          /\ map FileUpload.type added
             = map FileUpload.fileType fileList
          /\ map FileUpload.name added
             = map FileUpload.file_name fileList)
  /\ (forall (p : string) (bytes : nat) (txt : string),
        FileUpload.chooser_accepts (p ++ ".hpp") = true
        /\ FileUpload.fileType (FileUpload.mkFile (p ++ ".hpp") bytes txt)
           = FileUpload.source).
Proof.
  split; [|split].
  - intros f. split; [apply fileType_header_iff|].
    rewrite <- fileType_header_iff.
    destruct (FileUpload.fileType f); split; congruence.
  - intros random fileList st.
    exists (FileUpload.newFiles random 0 fileList).
    destruct (newFiles_fields random fileList 0) as (Ht & Hn & _).
    repeat split; assumption.
  - intros p bytes txt. split.
    + unfold FileUpload.chooser_accepts, FileUpload.accept.
      cbn [existsb].
      assert (Js.endsWith (p ++ ".hpp") ".hpp" = true) as ->
        by (apply endsWith_iff; now exists p).
      now rewrite !orb_true_r.
    + unfold FileUpload.fileType. cbn [FileUpload.file_name].
      now rewrite endsWith_hpp_not_h.
Qed.

Lemma filter_subsequence {A : Type} (keep : A -> bool) (l : list A) :
  subsequence (filter keep l) l.
Proof.
  induction l as [|x l IH]; cbn [filter].
  - constructor.
  - destruct (keep x); now constructor.
Qed.

Lemma filter_complement_length {A : Type} (keep : A -> bool) (l : list A) :
  List.length (filter keep l)
  + List.length (filter (fun x => negb (keep x)) l)
  = List.length l.
Proof.
  induction l as [|x l IH]; [reflexivity|].
  cbn [filter]. destruct (keep x); cbn [negb List.length]; lia.
Qed.

(** C10: removing the file with a given id leaves exactly the files whose
    id differs, each as it was and in the order it had; the new list becomes
    the component's list and is what [onFilesChange] is called with; no file
    with that id stays, however many carried it. *)
Theorem removeFile_filters_by_id (id0 : string) (st : FileUpload.State) :
  let st' := FileUpload.removeFile id0 st in
  FileUpload.files st'
  = filter (fun f => negb (String.eqb (FileUpload.id f) id0))
           (FileUpload.files st)
  /\ (forall f, In f (FileUpload.files st')
                <-> In f (FileUpload.files st) /\ FileUpload.id f <> id0)
  /\ subsequence (FileUpload.files st') (FileUpload.files st)
  /\ FileUpload.onFilesChange_calls st'
     = FileUpload.onFilesChange_calls st ++ [FileUpload.files st']
  /\ Forall (fun f => FileUpload.id f <> id0) (FileUpload.files st')
  /\ List.length (FileUpload.files st')
     + List.length (filter (fun f => String.eqb (FileUpload.id f) id0)
                           (FileUpload.files st))
     = List.length (FileUpload.files st)
  /\ FileUpload.dragActive st' = FileUpload.dragActive st.
Proof.
  cbn zeta. unfold FileUpload.removeFile.
  cbn [FileUpload.files FileUpload.onFilesChange FileUpload.setFiles
       FileUpload.onFilesChange_calls FileUpload.dragActive].
  assert (Hin : forall f,
    In f (filter (fun f => negb (String.eqb (FileUpload.id f) id0))
                 (FileUpload.files st))
    <-> In f (FileUpload.files st) /\ FileUpload.id f <> id0).
  { intros f. rewrite filter_In, negb_true_iff.
    destruct (String.eqb_spec (FileUpload.id f) id0); intuition congruence. }
  split; [reflexivity|]. split; [exact Hin|].
  split; [apply filter_subsequence|]. split; [reflexivity|].
  split; [|split; [|reflexivity]].
  - apply Forall_forall. intros f Hf. now apply Hin in Hf.
  - rewrite <- (filter_complement_length
                 (fun f => negb (String.eqb (FileUpload.id f) id0))
                 (FileUpload.files st)).
    f_equal. f_equal. apply filter_ext. intros f. now rewrite negb_involutive.
Qed.

Example removeFile_shared_id :
  FileUpload.files
    (FileUpload.removeFile "k3x"
       (FileUpload.mkState
          [ FileUpload.mkUploadedFile "k3x" "a.c" 10 FileUpload.source None;
            FileUpload.mkUploadedFile "q9z" "b.h" 20 FileUpload.header None;
            FileUpload.mkUploadedFile "k3x" "c.c" 30 FileUpload.source None ]
          false []))
  = [ FileUpload.mkUploadedFile "q9z" "b.h" 20 FileUpload.header None ].
Proof. reflexivity. Qed.

(** ** The version that calls the backend *)

Section ApiFacts.
Import TestGeneration Api.

Lemma truthy_get (d : Js.Value) (k : string) :
  Js.truthy d = true -> exists v, Js.get d k = Some v.
Proof. destruct d; try discriminate; intros _; eexists; reflexivity. Qed.

Ltac run_try :=
  cbv beta iota delta [generateTests_resume generateTests_try bind read
                       generateTestsAPI ret throw act].

Lemma resume_success (st0 : string) (resp d : Js.Value) (c : Component) :
  Js.get resp "status" = Some (Js.Str "success") ->
  Js.get resp "data" = Some d ->
  Js.truthy d = true ->
  exists tc rs mk,
    Js.get d "test_cases" = Some tc
    /\ Js.get d "test_runner_script" = Some rs
    /\ Js.get d "makefile_content" = Some mk
    /\ generateTests_resume (Response true st0 (Some resp)) c
       = succeeded d tc rs mk c.
Proof.
  intros Hs Hd Ht.
  destruct (truthy_get d "test_cases" Ht) as [tc Htc].
  destruct (truthy_get d "test_runner_script" Ht) as [rs Hrs].
  destruct (truthy_get d "makefile_content" Ht) as [mk Hmk].
  exists tc, rs, mk. repeat (split; [assumption|]).
  run_try. rewrite Hs. cbv beta iota delta [ret Js.strict_eq_str].
  cbn [String.eqb Ascii.eqb Bool.eqb]. rewrite Hd. cbv beta iota.
  rewrite Ht, Htc, Hrs, Hmk. reflexivity.
Qed.

Lemma resume_failure (fr : FetchResult) (c : Component) :
  success_with_data fr = false ->
  exists e, generateTests_resume fr c = generateTests_catch e c.
Proof.
  destruct fr as [|[|] st0 [resp|]]; cbn [success_with_data];
    try (intros _; eexists; reflexivity).
  destruct resp as [| |b|q|s|items|props]; cbn [Js.get];
    try (intros _; eexists; reflexivity).
  run_try. cbn [Js.get].
  destruct (Js.strict_eq_str (Js.lookup "status" props) "success");
    cbn [andb]; cbv beta iota delta [ret]; [|intros _; eexists; reflexivity].
  intros ->. eexists; reflexivity.
Qed.

Lemma success_with_data_inv (fr : FetchResult) :
  success_with_data fr = true ->
  exists st0 resp d,
    fr = Response true st0 (Some resp)
    /\ Js.get resp "status" = Some (Js.Str "success")
    /\ Js.get resp "data" = Some d
    /\ Js.truthy d = true.
Proof.
  destruct fr as [|[|] st0 [resp|]]; cbn [success_with_data];
    try discriminate.
  destruct (Js.get resp "status") as [st|] eqn:Hst; [|discriminate].
  destruct (Js.get resp "data") as [d|] eqn:Hd; [|discriminate].
  intros H. apply andb_true_iff in H as [H1 H2].
  exists st0, resp, d. repeat split; try assumption.
  destruct st; try discriminate. cbn [Js.strict_eq_str] in H1.
  apply String.eqb_eq in H1. now subst.
Qed.

Lemma start_with_files (c : Component) :
  files c <> [] ->
  generateTests_start c
  = (post (map toFileData (files c))
       (setProgress 50
          (setCurrentStep "Generating Tests with Gemini AI"
             (setProgress 25
                (setCurrentStep "Uploading files..."
                   (setProgress 0 (setStatus generating c)))))), true).
Proof.
  intros H. unfold generateTests_start.
  destruct (files c) eqn:E; [congruence|]. cbn [List.length Nat.eqb].
  cbn [files setStatus setProgress setCurrentStep]. now rewrite E.
Qed.

Lemma start_without_files (c : Component) :
  files c = [] ->
  generateTests_start c
  = (console_error (Js.Str "No files available for processing") c, false).
Proof. intros H. unfold generateTests_start. now rewrite H. Qed.

(** Every settled call ends in the [catch] block or in the success
    branch. *)
Lemma resume_cases (fr : FetchResult) (c : Component) :
  (exists e, generateTests_resume fr c = generateTests_catch e c)
  \/ (exists d tc rs mk, generateTests_resume fr c = succeeded d tc rs mk c).
Proof.
  destruct (success_with_data fr) eqn:E.
  - right. apply success_with_data_inv in E
      as (st0 & resp & d & -> & Hs & Hd & Ht).
    destruct (resume_success st0 resp d c Hs Hd Ht)
      as (tc & rs & mk & _ & _ & _ & H).
    now exists d, tc, rs, mk.
  - left. now apply resume_failure.
Qed.

Lemma resume_keeps_files_and_requests (fr : FetchResult) (c : Component) :
  files (generateTests_resume fr c) = files c
  /\ requests (generateTests_resume fr c) = requests c.
Proof.
  destruct (resume_cases fr c) as [[e ->] | (d & tc & rs & mk & ->)];
    split; reflexivity.
Qed.

End ApiFacts.

(** C7: the body posted to [/generate_tests] has one [{filename, content,
    size}] record per uploaded file, in the order of the files, with the
    file's name and size and with its content, or the empty string when it
    has none; one body is posted per call, none when there is no file; the
    files themselves are the same after the call. *)
Theorem request_mirrors_files (c : Api.Component) (fr : Api.FetchResult) :
  let c' := Api.generateTests fr c in
  let body := map Api.toFileData (Api.files c) in
  Api.files c' = Api.files c
  /\ Api.requests c'
     = Api.requests c ++ (if (List.length (Api.files c) =? 0)%nat then []
                          else [body])
  /\ List.length body = List.length (Api.files c)
  /\ (forall i f,
        nth_error (Api.files c) i = Some f ->
        nth_error body i
        = Some (Api.mkFileData
                  (FileUpload.name f)
                  (match FileUpload.content f with
                   | Some s => s
                   | None => ""
                   end)
                  (FileUpload.size f))).
Proof.
  cbn zeta.
  assert (Hfiles : Api.files c = [] \/ Api.files c <> [])
    by (destruct (Api.files c); [left | right]; congruence).
  split; [|split; [|split]].
  - unfold Api.generateTests. destruct Hfiles as [E|E].
    + rewrite start_without_files by assumption. reflexivity.
    + rewrite start_with_files by assumption.
      rewrite (proj1 (resume_keeps_files_and_requests fr _)). reflexivity.
  - unfold Api.generateTests. destruct Hfiles as [E|E].
    + rewrite start_without_files by assumption. rewrite E. cbn.
      now rewrite app_nil_r.
    + rewrite start_with_files by assumption.
      rewrite (proj2 (resume_keeps_files_and_requests fr _)).
      destruct (Api.files c); [congruence | reflexivity].
  - apply length_map.
  - intros i f H. rewrite nth_error_map, H. cbn [option_map].
    unfold Api.toFileData. do 2 f_equal.
    destruct (FileUpload.content f) as [s|]; [|reflexivity].
    destruct (String.eqb_spec s ""); congruence.
Qed.

(** C6: when the awaited call does not settle as a success carrying data,
    the component ends in status ['failed'] with the step "Generation
    failed", [onTestGenerated] is not called, and results, report rows and
    scripts stay as they were; a success whose data holds an empty
    [test_cases] array ends in ['completed'] instead, with the callback
    called once with that data. *)
Theorem failed_response_reports_failure
        (c : Api.Component) (fr : Api.FetchResult) :
  Api.files c <> [] ->
  success_with_data fr = false ->
  let c' := Api.generateTests fr c in
  Api.status c' = TestGeneration.failed
  /\ Api.currentStep c' = "Generation failed"
  /\ Api.onTestGenerated_calls c' = Api.onTestGenerated_calls c
  /\ Api.results c' = Api.results c
  /\ Api.excelData c' = Api.excelData c
  /\ Api.testScripts c' = Api.testScripts c
  /\ (exists e, Api.console c' = Api.console c ++ [e])
  /\ (forall st0 resp d,
        Js.get resp "status" = Some (Js.Str "success") ->
        Js.get resp "data" = Some d ->
        Js.get d "test_cases" = Some (Js.Arr []) ->
        let ok := Api.generateTests (Api.Response true st0 (Some resp)) c in
        Api.status ok = TestGeneration.completed
        /\ Api.excelData ok = Js.Arr []
        /\ Api.results ok = d
        /\ Api.onTestGenerated_calls ok = Api.onTestGenerated_calls c ++ [d]
        /\ Api.status ok <> Api.status c').
Proof.
  intros Hfiles Hfail. cbn zeta. unfold Api.generateTests.
  rewrite start_with_files by assumption.
  destruct (resume_failure fr
              (Api.post (map Api.toFileData (Api.files c))
                 (Api.setProgress 50
                    (Api.setCurrentStep "Generating Tests with Gemini AI"
                       (Api.setProgress 25
                          (Api.setCurrentStep "Uploading files..."
                             (Api.setProgress 0
                                (Api.setStatus TestGeneration.generating
                                               c)))))))
              Hfail) as [e ->].
  do 6 (split; [reflexivity|]). split; [now exists e|].
  intros st0 resp d Hs Hd Htc.
  assert (Ht : Js.truthy d = true)
    by (destruct d; try discriminate; reflexivity).
  destruct (resume_success st0 resp d
              (Api.post (map Api.toFileData (Api.files c))
                 (Api.setProgress 50
                    (Api.setCurrentStep "Generating Tests with Gemini AI"
                       (Api.setProgress 25
                          (Api.setCurrentStep "Uploading files..."
                             (Api.setProgress 0
                                (Api.setStatus TestGeneration.generating
                                               c)))))))
              Hs Hd Ht) as (tc & rs & mk & Htc' & _ & _ & ->).
  rewrite Htc in Htc'. injection Htc' as <-.
  repeat split; try reflexivity. cbn. discriminate.
Qed.


Lemma failed_response_witness :
  Api.files (Api.initial one_file) <> []
  /\ success_with_data error_response = false
  /\ Api.status (Api.generateTests error_response (Api.initial one_file))
     = TestGeneration.failed
  /\ Api.onTestGenerated_calls
       (Api.generateTests error_response (Api.initial one_file)) = [].
Proof.
  assert (H1 : Api.files (Api.initial one_file) <> []) by discriminate.
  assert (H2 : success_with_data error_response = false) by reflexivity.
  pose proof (failed_response_reports_failure
                (Api.initial one_file) error_response H1 H2) as H.
  cbn zeta in H. destruct H as (Hs & _ & Hc & _).
  repeat split; assumption.
Defined.

Lemma nth_error_map_seq {A : Type} (f : nat -> A) (len : nat) :
  forall start i a,
    nth_error (map f (seq start len)) i = Some a -> a = f (start + i).
Proof.
  induction len as [|len IH]; intros start i a H.
  - destruct i; discriminate.
  - destruct i as [|i]; cbn in H.
    + injection H as <-. now rewrite Nat.add_0_r.
    + apply IH in H. now rewrite <- Nat.add_succ_comm.
Qed.

Section ExcelRowsShown.
Import TestGeneration.

Lemma fill_zeros (n : nat) (cur : string) :
  cur = "" \/ cur = "0" -> Js.fill n "0" cur = zeros n.
Proof.
  revert cur. induction n as [|n IH]; intros cur Hcur; [reflexivity|].
  destruct Hcur as [-> | ->]; cbn [Js.fill zeros]; f_equal; apply IH;
    now left.
Qed.

Lemma padStart_zeros (s : string) :
  Js.padStart s 3 "0" = (zeros (3 - String.length s) ++ s)%string.
Proof.
  unfold Js.padStart.
  destruct (Nat.leb_spec 3 (String.length s)) as [H|H].
  - replace (3 - String.length s) with 0 by lia. reflexivity.
  - rewrite fill_zeros by now right. reflexivity.
Qed.

Lemma to_uint_no_leading_zero (n : nat) (d : uint) :
  n <> 0 -> Nat.to_uint n <> D0 d.
Proof.
  intros Hn E.
  pose proof (DecimalNat.Unsigned.to_of (Nat.to_uint n)) as H.
  rewrite DecimalNat.Unsigned.of_to, E, DecimalFacts.unorm_D0 in H.
  unfold unorm in H. destruct (nzhead d) as [|u|u|u|u|u|u|u|u|u|u] eqn:Ez;
    try discriminate.
  - injection H as ->. apply Hn.
    rewrite <- (DecimalNat.Unsigned.of_to n), E. reflexivity.
  - exact (DecimalFacts.nzhead_nonzero _ _ Ez).
Qed.

Lemma String_of_nat_no_leading_zero (n : nat) (rest : string) :
  n <> 0 -> Js.String_of_nat n <> String "0" rest.
Proof.
  intros Hn E. unfold Js.String_of_nat in E.
  destruct (Nat.to_uint n) as [|d|d|d|d|d|d|d|d|d|d] eqn:Ed;
    cbn [NilEmpty.string_of_uint] in E; try discriminate.
  exact (to_uint_no_leading_zero n d Hn Ed).
Qed.

Lemma valid_child_or_else (v : Js.Value) (s : string) :
  valid_child v = true -> valid_child (Js.or_else v (Js.Str s)) = true.
Proof. intros H. unfold Js.or_else. now destruct (Js.truthy v). Qed.

Lemma renderRow_test_case (row : Js.Value) (index : nat) (r : Row) :
  is_test_case row -> renderRow row index = Some r -> row_shows r = true.
Proof.
  intros (props & -> & Hf & Hd & He). unfold renderRow. cbn [Js.get].
  intros [= <-]. unfold row_shows.
  cbn [cell_function_name cell_description cell_expected_result].
  now rewrite !valid_child_or_else.
Qed.

Lemma mapRows_test_cases (items : list Js.Value) :
  Forall is_test_case items ->
  forall index rows,
    mapRows items index = Some rows -> forallb row_shows rows = true.
Proof.
  induction 1 as [|row rest Hrow _ IH]; intros index rows; cbn [mapRows].
  - now intros [= <-].
  - destruct (renderRow row index) as [r|] eqn:Er; [|discriminate].
    destruct (mapRows rest (S index)) as [rs|] eqn:Ers; [|discriminate].
    intros [= <-]. cbn [forallb].
    now rewrite (renderRow_test_case row index r Hrow Er), (IH _ _ Ers).
Qed.

Lemma test_cases_are_objects (items : list Js.Value) :
  Forall is_test_case items -> Forall is_object items.
Proof.
  apply Forall_impl. intros v (props & -> & _). now exists props.
Qed.

Lemma renderExcelData_test_cases (items : list Js.Value) :
  Forall is_test_case items ->
  exists rows,
    renderExcelData (Js.Arr items) = Rows rows
    /\ map cell_id rows
       = map (fun i =>
                ("TC_" ++ Js.padStart (Js.String_of_nat i) 3 "0")%string)
             (seq 1 (List.length items)).
Proof.
  intros WF.
  destruct (mapRows_objects items (test_cases_are_objects items WF) 0)
    as (rows & Hrows & Hids).
  exists rows. split; [|exact Hids]. unfold renderExcelData.
  now rewrite Hrows, (mapRows_test_cases items WF 0 rows Hrows).
Qed.

End ExcelRowsShown.

(** C1: for a list of well-formed test cases the report shows one row per
    test case.  The identifier of the row at 1-based position [i] is
    ["TC_"], then as many zeros as the decimal numeral of [i] falls short
    of three digits, then that numeral (which has no leading zero and
    denotes [i]): ["TC_001"], ["TC_002"], ...  The identifiers are a
    function of the number of rows alone, whatever the test cases hold (an
    [id] field included); they carry the numbers 1, 2, ... and so increase
    strictly and are pairwise distinct.  The rows are those of the
    [test_cases] array of a successful response. *)
Theorem excel_rows_numbered
        (tcs : list Js.Value) (WF : Forall is_test_case tcs) :
  exists rows,
    TestGeneration.renderExcelData (Js.Arr tcs) = TestGeneration.Rows rows
    /\ List.length rows = List.length tcs
    /\ (forall i row,
          nth_error rows i = Some row ->
          (exists digits,
              TestGeneration.cell_id row
              = ("TC_" ++ zeros (3 - String.length digits) ++ digits)%string
              /\ decimal_value digits = Some (i + 1)
              /\ forall rest, digits <> String "0" rest)
          /\ id_number (TestGeneration.cell_id row) = Some (i + 1))
    /\ (forall i j a b,
          i < j ->
          nth_error rows i = Some a ->
          nth_error rows j = Some b ->
          exists m n,
            id_number (TestGeneration.cell_id a) = Some m
            /\ id_number (TestGeneration.cell_id b) = Some n
            /\ m < n)
    /\ NoDup (map TestGeneration.cell_id rows)
    /\ (forall tcs' rows',
          Forall is_test_case tcs' ->
          List.length tcs' = List.length tcs ->
          TestGeneration.renderExcelData (Js.Arr tcs')
          = TestGeneration.Rows rows' ->
          map TestGeneration.cell_id rows' = map TestGeneration.cell_id rows)
    /\ (forall c st0 resp d,
          Api.files c <> [] ->
          Js.get resp "status" = Some (Js.Str "success") ->
          Js.get resp "data" = Some d ->
          Js.get d "test_cases" = Some (Js.Arr tcs) ->
          Api.excelData
            (Api.generateTests (Api.Response true st0 (Some resp)) c)
          = Js.Arr tcs).
Proof.
  destruct (renderExcelData_test_cases tcs WF) as (rows & Hrows & Hids).
  assert (Hnth : forall i row,
    nth_error rows i = Some row ->
    (exists digits,
        TestGeneration.cell_id row
        = ("TC_" ++ zeros (3 - String.length digits) ++ digits)%string
        /\ decimal_value digits = Some (i + 1)
        /\ forall rest, digits <> String "0" rest)
    /\ id_number (TestGeneration.cell_id row) = Some (i + 1)).
  { intros i row H.
    assert (H' : nth_error (map TestGeneration.cell_id rows) i
                 = Some (TestGeneration.cell_id row))
      by (rewrite nth_error_map, H; reflexivity).
    rewrite Hids in H'. apply nth_error_map_seq in H'.
    rewrite (Nat.add_comm i 1). split.
    - exists (Js.String_of_nat (1 + i)). split; [|split].
      + rewrite H', padStart_zeros. reflexivity.
      + apply digits_String_of_nat.
      + intros rest. apply String_of_nat_no_leading_zero. lia.
    - rewrite H'. apply id_number_padStart. }
  exists rows. split; [exact Hrows|].
  split; [|split; [exact Hnth|split; [|split; [|split]]]].
  - rewrite <- (length_map TestGeneration.cell_id), Hids, length_map.
    apply length_seq.
  - intros i j a b Hij Ha Hb. exists (i + 1), (j + 1).
    split; [apply (Hnth i a Ha)|]. split; [apply (Hnth j b Hb)|]. lia.
  - apply (NoDup_map_inv id_number). rewrite Hids, id_numbers_seq.
    apply Injective_map_NoDup; [|apply seq_NoDup].
    intros x y H. now injection H.
  - intros tcs' rows' WF' Hlen Hr.
    destruct (renderExcelData_test_cases tcs' WF')
      as (rows2 & Hrows2 & Hids2).
    rewrite Hrows2 in Hr. injection Hr as <-.
    rewrite Hids, Hids2, Hlen. reflexivity.
  - intros c st0 resp d Hfiles Hs Hd Htc.
    assert (Ht : Js.truthy d = true)
      by (destruct d; try discriminate; reflexivity).
    unfold Api.generateTests. rewrite start_with_files by assumption.
    destruct (resume_success st0 resp d
                (Api.post (map Api.toFileData (Api.files c))
                   (Api.setProgress 50
                      (Api.setCurrentStep "Generating Tests with Gemini AI"
                         (Api.setProgress 25
                            (Api.setCurrentStep "Uploading files..."
                               (Api.setProgress 0
                                  (Api.setStatus TestGeneration.generating
                                                 c)))))))
                Hs Hd Ht) as (tc & rs & mk & Htc' & _ & _ & ->).
    rewrite Htc in Htc'. injection Htc' as <-. reflexivity.
Qed.

Lemma excel_rows_witness :
  Forall is_test_case three_test_cases
  /\ exists rows,
       TestGeneration.renderExcelData (Js.Arr three_test_cases)
       = TestGeneration.Rows rows
       /\ List.length rows = 3
       /\ NoDup (map TestGeneration.cell_id rows).
Proof.
  assert (WF : Forall is_test_case three_test_cases)
    by (repeat constructor; eexists; repeat split; reflexivity).
  split; [exact WF|].
  destruct (excel_rows_numbered three_test_cases WF)
    as (rows & Hr & Hl & _ & _ & Hd & _).
  exists rows. repeat split; assumption.
Defined.

Example excel_rows_three :
  option_map (map TestGeneration.cell_id)
             (TestGeneration.mapRows three_test_cases 0)
  = Some ["TC_001"; "TC_002"; "TC_003"]%string.
Proof. reflexivity. Qed.

(** ** The Generate button *)

Lemma disabled_iff (s : TestGeneration.TestStatus) :
  (TestGeneration.disabled s = true
   <-> s = TestGeneration.generating \/ s = TestGeneration.parsing
       \/ s = TestGeneration.running)
  /\ (TestGeneration.disabled s = false
      <-> s = TestGeneration.idle \/ s = TestGeneration.completed
          \/ s = TestGeneration.failed).
Proof.
  destruct s; cbn; split; split; intros H;
    repeat (destruct H as [H|H]); try discriminate; auto.
Qed.

Section SingleFlight.
Import TestGeneration.

Lemma api_step_invariant (r : Api.Running) (e : Api.Event) :
  api_invariant r -> api_invariant (Api.step r e).
Proof.
  intros Inv. destruct e as [|fr]; cbn [Api.step].
  - destruct (List.length (Api.files (Api.component r)) =? 0)%nat eqn:El;
      [exact Inv|]. cbn [orb].
    destruct (disabled (Api.status (Api.component r))) eqn:Ed;
      [exact Inv|].
    destruct Inv as [[H0 _] | [_ Hg]]; [|rewrite Hg in Ed; discriminate].
    rewrite start_with_files
      by (intros E; rewrite E in El; discriminate).
    right. rewrite H0. split; reflexivity.
  - destruct (Api.in_flight r) as [|n] eqn:En; [exact Inv|].
    destruct Inv as [[H0 _] | [H1 _]]; [congruence|].
    assert (n = 0) as -> by congruence. left. split; [reflexivity|].
    destruct (resume_cases fr (Api.component r))
      as [[e ->] | (d & tc & rs & mk & ->)]; reflexivity.
Qed.

Lemma fold_left_invariant {S E : Type} (P : S -> Prop) (f : S -> E -> S) :
  (forall s e, P s -> P (f s e)) ->
  forall events s, P s -> P (fold_left f events s).
Proof.
  intros Hstep events. induction events as [|e events IH]; intros s Hs.
  - exact Hs.
  - cbn [fold_left]. apply IH, Hstep, Hs.
Qed.

(** In the backend-calling version at most one call of [generateTests]
    waits at any time, and the button is disabled while one does. *)
Lemma api_single_flight (fs : list FileUpload.UploadedFile)
      (events : list Api.Event) :
  let r := Api.run fs events in
  Api.in_flight r <= 1
  /\ (Api.in_flight r = 1 ->
      disabled (Api.status (Api.component r)) = true).
Proof.
  cbn zeta.
  assert (Inv : api_invariant (Api.run fs events)).
  { unfold Api.run. apply (fold_left_invariant api_invariant);
      [apply api_step_invariant|].
    left. split; reflexivity. }
  destruct Inv as [[H0 _] | [H1 Hg]].
  - rewrite H0. split; [lia | discriminate].
  - rewrite H1, Hg. split; [lia | reflexivity].
Qed.


Lemma two_step_step_invariant (c : Simulated.Component)
      (e : Simulated.Event) :
  two_step_invariant c -> two_step_invariant (Simulated.TwoStep.step c e).
Proof.
  intros Inv. destruct e; cbn [Simulated.TwoStep.step Simulated.step].
  - destruct ((List.length (Simulated.files c) =? 0)%nat
              || disabled (Simulated.status c)) eqn:E; [exact Inv|].
    apply orb_false_iff in E as [_ Ed].
    destruct Inv as [[H0 _] | [[_ Hs] | [_ Hs]]];
      try (rewrite Hs in Ed; discriminate).
    right. left. cbn. rewrite H0. split; reflexivity.
  - destruct Inv as [[H0 Hd] | [[Hw Hs] | [Hw Hs]]]; rewrite ?H0, ?Hw.
    + left. now split.
    + right. right. cbn. rewrite Hw. split; reflexivity.
    + left. cbn. rewrite Hw. split; reflexivity.
Qed.

Lemma two_step_single_flight (fs : list FileUpload.UploadedFile)
      (events : list Simulated.Event) :
  let c := Simulated.TwoStep.run fs events in
  Simulated.in_flight c <= 1
  /\ (Simulated.in_flight c = 1 -> disabled (Simulated.status c) = true).
Proof.
  cbn zeta.
  assert (Inv : two_step_invariant (Simulated.TwoStep.run fs events)).
  { unfold Simulated.TwoStep.run, Simulated.run.
    apply (fold_left_invariant two_step_invariant);
      [apply two_step_step_invariant|].
    left. split; reflexivity. }
  unfold Simulated.in_flight.
  destruct Inv as [[H0 _] | [[Hw Hs] | [Hw Hs]]];
    rewrite ?H0, ?Hw, ?Hs; cbn; split; try lia; try discriminate;
    reflexivity.
Qed.

End SingleFlight.

(** C9, the four-step version: after a click and three timeouts the first
    call is in its last iteration, still waiting and with [onTestGenerated]
    not yet called, while the status is already ['completed'] and the button
    enabled; a click then starts a second call beside the first. *)
Theorem four_step_second_run_while_in_flight :
  let before :=
    Simulated.FourStep.run one_file
      [Simulated.Click; Simulated.Timeout; Simulated.Timeout;
       Simulated.Timeout] in
  let after := Simulated.FourStep.step before Simulated.Click in
  Simulated.in_flight before = 1
  /\ Simulated.status before = TestGeneration.completed
  /\ Simulated.onTestGenerated_calls before = []
  /\ TestGeneration.disabled (Simulated.status before) = false
  /\ Simulated.in_flight after = 2
  /\ Simulated.waiting after = [3; 0].
Proof. cbn zeta. repeat split; reflexivity. Qed.

(** ** The candidate parsers *)

Section ParserFacts.
Import Core.
Variable default_category : Category.

Lemma parse_from_cons (k : nat) (raw : RawRecord) (rest : list RawRecord) :
  parse_from default_category k (raw :: rest)
  = match parse_record default_category k raw with
    | inl r => (r :: fst (parse_from default_category (S k) rest),
                snd (parse_from default_category (S k) rest))
    | inr i => (fst (parse_from default_category (S k) rest),
                i :: snd (parse_from default_category (S k) rest))
    end.
Proof.
  cbn [parse_from].
  destruct (parse_from default_category (S k) rest) as [records issues].
  destruct (parse_record default_category k raw); reflexivity.
Qed.

Lemma parse_record_cases (k : nat) (raw : RawRecord) :
  (text "function_name" raw <> "" /\ text "test_code" raw <> ""
   /\ parse_record default_category k raw
      = inl (mkTestCaseRecord
               (text "id" raw) (text "function_name" raw)
               (text "description" raw) (text "input_data" raw)
               (text "expected_output" raw)
               (category_of default_category (text "category" raw))
               (text "test_code" raw)))
  \/ ((text "function_name" raw = "" \/ text "test_code" raw = "")
      /\ parse_record default_category k raw
         = inr (mkParseIssue k
                  (String.eqb (text "function_name" raw) "")
                  (String.eqb (text "test_code" raw) ""))).
Proof.
  unfold parse_record.
  destruct (String.eqb_spec (text "function_name" raw) "") as [Ef|Ef];
    destruct (String.eqb_spec (text "test_code" raw) "") as [Ec|Ec];
    cbn [orb]; auto.
Qed.

Lemma parsed_fields_non_empty (raws : list RawRecord) :
  forall k r,
    In r (fst (parse_from default_category k raws)) ->
    function_name r <> "" /\ test_code r <> "".
Proof.
  induction raws as [|raw rest IH]; intros k r H; [destruct H|].
  rewrite parse_from_cons in H.
  destruct (parse_record_cases k raw) as [(Hf & Hc & E) | (_ & E)];
    rewrite E in H; cbn [fst] in H.
  - destruct H as [<- | H]; [now split | now apply (IH (S k))].
  - now apply (IH (S k)).
Qed.

Lemma parsed_and_dropped (raws : list RawRecord) :
  forall k,
    List.length (fst (parse_from default_category k raws))
    + List.length (snd (parse_from default_category k raws))
    = List.length raws.
Proof.
  induction raws as [|raw rest IH]; intros k; [reflexivity|].
  rewrite parse_from_cons. specialize (IH (S k)).
  destruct (parse_record default_category k raw);
    cbn [fst snd List.length]; lia.
Qed.

Lemma dropped_has_issue (raws : list RawRecord) :
  forall k i raw,
    nth_error raws i = Some raw ->
    text "function_name" raw = "" \/ text "test_code" raw = "" ->
    In (mkParseIssue (k + i)
          (String.eqb (text "function_name" raw) "")
          (String.eqb (text "test_code" raw) ""))
       (snd (parse_from default_category k raws)).
Proof.
  induction raws as [|raw0 rest IH]; intros k i raw Hi Hmiss;
    [destruct i; discriminate|].
  rewrite parse_from_cons. destruct i as [|i]; cbn [nth_error] in Hi.
  - injection Hi as ->. rewrite Nat.add_0_r.
    destruct (parse_record_cases k raw) as [(Hf & Hc & _) | (_ & E)];
      [tauto|].
    rewrite E. now left.
  - rewrite <- Nat.add_succ_comm.
    pose proof (IH (S k) i raw Hi Hmiss) as H.
    destruct (parse_record default_category k raw0); cbn [snd];
      [exact H | now right].
Qed.

Lemma valid_is_produced (raws : list RawRecord) :
  forall k i raw,
    nth_error raws i = Some raw ->
    text "function_name" raw <> "" ->
    text "test_code" raw <> "" ->
    In (mkTestCaseRecord
          (text "id" raw) (text "function_name" raw)
          (text "description" raw) (text "input_data" raw)
          (text "expected_output" raw)
          (category_of default_category (text "category" raw))
          (text "test_code" raw))
       (fst (parse_from default_category k raws)).
Proof.
  induction raws as [|raw0 rest IH]; intros k i raw Hi Hf Hc;
    [destruct i; discriminate|].
  rewrite parse_from_cons. destruct i as [|i]; cbn [nth_error] in Hi.
  - injection Hi as ->.
    destruct (parse_record_cases k raw) as [(_ & _ & E) | (Hmiss & _)];
      [|tauto].
    rewrite E. now left.
  - pose proof (IH (S k) i raw Hi Hf Hc) as H.
    destruct (parse_record default_category k raw0); cbn [fst];
      [now right | exact H].
Qed.

End ParserFacts.

(** C5: a candidate parser puts a record in its output only with a
    non-empty [function_name] and [test_code]; a record that lacks either
    is left out and an issue naming its position is recorded, so that every
    record of the candidate is either produced or reported; the records
    that have both fields are produced whatever the others lack, with a
    missing [description] read as the empty string. *)
Theorem parser_drops_only_incomplete_records
        (default_category : Core.Category) (raws : list Core.RawRecord) :
  let records := fst (Core.parse default_category raws) in
  let issues := snd (Core.parse default_category raws) in
  (forall r, In r records ->
             Core.function_name r <> "" /\ Core.test_code r <> "")
  /\ List.length records + List.length issues = List.length raws
  /\ (forall i raw,
        nth_error raws i = Some raw ->
        Core.text "function_name" raw = ""
        \/ Core.text "test_code" raw = "" ->
        In (Core.mkParseIssue i
              (String.eqb (Core.text "function_name" raw) "")
              (String.eqb (Core.text "test_code" raw) ""))
           issues)
  /\ (forall i raw,
        nth_error raws i = Some raw ->
        Core.text "function_name" raw <> "" ->
        Core.text "test_code" raw <> "" ->
        exists r,
          In r records
          /\ Core.function_name r = Core.text "function_name" raw
          /\ Core.test_code r = Core.text "test_code" raw
          /\ Core.description r = Core.text "description" raw
          /\ (Core.field "description" raw = None ->
              Core.description r = "")).
Proof.
  cbn zeta. unfold Core.parse. split; [|split; [|split]].
  - intros r. apply parsed_fields_non_empty.
  - apply parsed_and_dropped.
  - intros i raw Hi Hmiss.
    apply (dropped_has_issue default_category raws 0 i raw Hi Hmiss).
  - intros i raw Hi Hf Hc. eexists. split.
    + apply (valid_is_produced default_category raws 0 i raw Hi Hf Hc).
    + cbn. repeat split. intros H. unfold Core.text. now rewrite H.
Qed.

Example parse_mixed_candidate :
  Core.parse Core.positive
    [ [ ("function_name", "test_push"); ("test_code", "void t(void) {}") ];
      [ ("function_name", "test_pop"); ("description", "no body") ];
      [ ("test_code", "void u(void) {}"); ("function_name", "test_top");
        ("description", "Top of stack"); ("category", "Boundary") ] ]
  = ( [ Core.mkTestCaseRecord "" "test_push" "" "" "" Core.positive
          "void t(void) {}";
        Core.mkTestCaseRecord "" "test_top" "Top of stack" "" ""
          Core.boundary "void u(void) {}" ],
      [ Core.mkParseIssue 1 false true ] ).
Proof. reflexivity. Qed.

(** ** The reconciler: deduplication *)

Section ReconcilerFacts.
Import Core.

Lemma key_eqb_eq (a b : string * string) : key_eqb a b = true <-> a = b.
Proof.
  destruct a as [a1 a2], b as [b1 b2]. unfold key_eqb. cbn [fst snd].
  rewrite andb_true_iff, !String.eqb_eq. split.
  - intros [-> ->]. reflexivity.
  - intros [= -> ->]. now split.
Qed.

Lemma shares_key_iff (r : TestCaseRecord) (working : list TestCaseRecord) :
  shares_key r working = true
  <-> exists r', In r' working /\ dedup_key r' = dedup_key r.
Proof.
  unfold shares_key. rewrite existsb_exists.
  split; intros (r' & Hin & H); exists r'; split; try assumption;
    now apply key_eqb_eq.
Qed.

Lemma shares_key_in_keys (r : TestCaseRecord)
      (working : list TestCaseRecord) :
  shares_key r working = true <-> In (dedup_key r) (map dedup_key working).
Proof.
  rewrite shares_key_iff, in_map_iff.
  split; intros (r' & H1 & H2); exists r'; tauto.
Qed.

Lemma accumulate_concat (candidates : list (list TestCaseRecord)) :
  accumulate candidates = fold_left accept (List.concat candidates) [].
Proof.
  unfold accumulate. generalize (@nil TestCaseRecord) as working.
  induction candidates as [|c cs IH]; intros working; [reflexivity|].
  cbn [fold_left List.concat]. rewrite fold_left_app. apply IH.
Qed.

Lemma NoDup_snoc {A : Type} (l : list A) (x : A) :
  NoDup l -> ~ In x l -> NoDup (l ++ [x]).
Proof.
  induction 1 as [|y l Hy Hl IH]; intros Hx; cbn [app].
  - constructor; [intros [] | constructor].
  - constructor.
    + rewrite in_app_iff. intros [H | [H | []]]; [tauto|].
      apply Hx. now left.
    + apply IH. intros H. apply Hx. now right.
Qed.

Lemma accept_keys_NoDup (working : list TestCaseRecord)
      (r : TestCaseRecord) :
  NoDup (map dedup_key working) -> NoDup (map dedup_key (accept working r)).
Proof.
  intros H. unfold accept. destruct (shares_key r working) eqn:E; [exact H|].
  rewrite map_app. apply NoDup_snoc; [exact H|].
  intros Hin. apply shares_key_in_keys in Hin. congruence.
Qed.

Lemma fold_accept_keys_NoDup (rs working : list TestCaseRecord) :
  NoDup (map dedup_key working) ->
  NoDup (map dedup_key (fold_left accept rs working)).
Proof.
  revert working. induction rs as [|r rs IH]; intros working H; [exact H|].
  cbn [fold_left]. apply IH, accept_keys_NoDup, H.
Qed.

Lemma first_with_key_app (k : string * string)
      (l1 l2 : list TestCaseRecord) :
  first_with_key k (l1 ++ l2)
  = match first_with_key k l1 with
    | Some r => Some r
    | None => first_with_key k l2
    end.
Proof.
  unfold first_with_key. induction l1 as [|x l1 IH]; [reflexivity|].
  simpl. destruct (key_eqb (dedup_key x) k); [reflexivity | exact IH].
Qed.

Lemma first_with_key_none (k : string * string) (l : list TestCaseRecord) :
  first_with_key k l = None -> forall r, In r l -> dedup_key r <> k.
Proof.
  intros H r Hin E. unfold first_with_key in H.
  apply (find_none _ _ H) in Hin. apply key_eqb_eq in E. congruence.
Qed.

(** Folding [accept] over further records never changes which record
    answers for a key: it is the first one in working-list-then-input
    order. *)
Lemma fold_accept_first (k : string * string) (rs : list TestCaseRecord) :
  forall working,
    first_with_key k (fold_left accept rs working)
    = first_with_key k (working ++ rs).
Proof.
  induction rs as [|r rs IH]; intros working.
  - now rewrite app_nil_r.
  - cbn [fold_left]. rewrite IH. unfold accept.
    destruct (shares_key r working) eqn:E.
    + rewrite !first_with_key_app.
      destruct (first_with_key k working) eqn:Ew; [reflexivity|].
      unfold first_with_key at 2. cbn [find].
      destruct (key_eqb (dedup_key r) k) eqn:Ek; [|reflexivity].
      apply key_eqb_eq in Ek. apply shares_key_iff in E as (r' & Hin & Hk).
      exfalso. apply (first_with_key_none k working Ew r' Hin). congruence.
    + now rewrite <- app_assoc.
Qed.

Lemma same_key_same_record (l : list TestCaseRecord)
      (a b : TestCaseRecord) :
  NoDup (map dedup_key l) ->
  In a l -> In b l -> dedup_key a = dedup_key b -> a = b.
Proof.
  induction l as [|x l IH]; intros Hnd Ha Hb E; [destruct Ha|].
  cbn [map] in Hnd. inversion Hnd as [|? ? Hx Hl]; subst.
  destruct Ha as [<- | Ha], Hb as [<- | Hb]; auto.
  - exfalso. apply Hx. rewrite E. now apply in_map.
  - exfalso. apply Hx. rewrite <- E. now apply in_map.
Qed.

Lemma assign_ids_fields (rs : list TestCaseRecord) :
  forall n,
    map (with_id "") (assign_ids n rs) = map (with_id "") rs
    /\ map dedup_key (assign_ids n rs) = map dedup_key rs
    /\ map id (assign_ids n rs) = map tc_id (seq n (List.length rs)).
Proof.
  induction rs as [|r rs IH]; intros n; [repeat split|].
  destruct (IH (S n)) as (H1 & H2 & H3).
  cbn [assign_ids map List.length seq]. rewrite H1, H2, H3. repeat split.
Qed.

(** The identifiers of a reconciled bundle are those of the positions
    1, 2, ... of its list, whatever [id] the records came with. *)
Lemma reconciled_ids_sequential
      (candidates : list (list TestCaseRecord))
      (runner build : option string) (areas : list string)
      (b : TestArtifactBundle) :
  reconcile candidates runner build areas = Bundle b ->
  map id (test_cases b)
  = map tc_id (seq 1 (List.length (accumulate candidates)))
  /\ map id_number (map id (test_cases b))
     = map Some (seq 1 (List.length (accumulate candidates))).
Proof.
  intros H. unfold reconcile in H.
  destruct (assign_ids_fields (accumulate candidates) 1) as (_ & _ & Hid).
  destruct (assign_ids 1 (accumulate candidates)) eqn:E; [discriminate|].
  injection H as <-. cbn [test_cases bundle_of]. split; [exact Hid|].
  rewrite Hid, map_map. apply map_ext. intros n. apply id_number_tc_id.
Qed.

End ReconcilerFacts.

Lemma accumulate_keys (candidates : list (list Core.TestCaseRecord)) :
  NoDup (map Core.dedup_key (Core.accumulate candidates))
  /\ (forall k,
        first_with_key k (Core.accumulate candidates)
        = first_with_key k (List.concat candidates)).
Proof.
  rewrite accumulate_concat. split.
  - apply fold_accept_keys_NoDup. constructor.
  - intros k. now rewrite fold_accept_first.
Qed.

Lemma only_record_for_key (l : list Core.TestCaseRecord)
      (k : string * string) (r' : Core.TestCaseRecord) :
  NoDup (map Core.dedup_key l) ->
  first_with_key k l = Some r' ->
  forall x, (In x l /\ Core.dedup_key x = k) <-> x = r'.
Proof.
  intros Hnd Hf x. unfold first_with_key in Hf.
  apply find_some in Hf as [Hin Hk]. apply key_eqb_eq in Hk.
  split.
  - intros [Hx Hxk]. apply (same_key_same_record l x r' Hnd Hx Hin).
    congruence.
  - intros ->. now split.
Qed.

Lemma first_with_key_found (l : list Core.TestCaseRecord)
      (r : Core.TestCaseRecord) :
  In r l -> exists r', first_with_key (Core.dedup_key r) l = Some r'.
Proof.
  intros Hin. destruct (first_with_key (Core.dedup_key r) l) eqn:E;
    [eauto|].
  exfalso. now apply (first_with_key_none _ _ E r Hin).
Qed.

(** C2: a record met while walking the candidates is appended to the
    working list exactly when no record accepted so far has its dedup key,
    and otherwise leaves the list as it is.  For a higher- and a
    lower-priority candidate that both hold a record with some key, the
    accumulated list holds exactly one record with that key, and it is the
    higher-priority candidate's.  In general the accumulated list has
    pairwise distinct keys and, for every key, holds the first record with
    that key in priority order; numbering the list changes identifiers
    only. *)
Theorem lower_priority_fills_gaps :
  (forall working r,
      (Core.accept working r = working ++ [r]
       /\ ~ exists r', In r' working
                       /\ Core.dedup_key r' = Core.dedup_key r)
      \/ (Core.accept working r = working
          /\ exists r', In r' working
                        /\ Core.dedup_key r' = Core.dedup_key r))
  /\ (forall high low h l,
        In h high -> In l low ->
        Core.dedup_key h = Core.dedup_key l ->
        exists kept,
          first_with_key (Core.dedup_key l) high = Some kept
          /\ forall x, (In x (Core.accumulate [high; low])
                        /\ Core.dedup_key x = Core.dedup_key l)
                       <-> x = kept)
  /\ (forall candidates,
        NoDup (map Core.dedup_key (Core.accumulate candidates))
        /\ (forall r, In r (List.concat candidates) ->
              exists kept,
                first_with_key (Core.dedup_key r) (List.concat candidates)
                = Some kept
                /\ forall x, (In x (Core.accumulate candidates)
                              /\ Core.dedup_key x = Core.dedup_key r)
                             <-> x = kept))
  /\ (forall candidates runner build areas b,
        Core.reconcile candidates runner build areas = Core.Bundle b ->
        map (Core.with_id "") (Core.test_cases b)
        = map (Core.with_id "") (Core.accumulate candidates)
        /\ NoDup (map Core.dedup_key (Core.test_cases b))).
Proof.
  split; [|split; [|split]].
  - intros working r. unfold Core.accept.
    destruct (Core.shares_key r working) eqn:E.
    + right. split; [reflexivity|]. now apply shares_key_iff.
    + left. split; [reflexivity|]. intros H.
      apply shares_key_iff in H. congruence.
  - intros high low h l Hh Hl Hk.
    destruct (accumulate_keys [high; low]) as [Hnd Hfirst].
    destruct (first_with_key_found high h Hh) as [kept Hkept].
    rewrite Hk in Hkept. exists kept. split; [exact Hkept|].
    apply only_record_for_key; [exact Hnd|].
    rewrite Hfirst. cbn [List.concat]. rewrite app_nil_r.
    now rewrite first_with_key_app, Hkept.
  - intros candidates.
    destruct (accumulate_keys candidates) as [Hnd Hfirst].
    split; [exact Hnd|]. intros r Hr.
    destruct (first_with_key_found _ r Hr) as [kept Hkept].
    exists kept. split; [exact Hkept|].
    apply only_record_for_key; [exact Hnd|]. now rewrite Hfirst.
  - intros candidates runner build areas b H. unfold Core.reconcile in H.
    destruct (assign_ids_fields (Core.accumulate candidates) 1)
      as (Hf & Hk & _).
    destruct (Core.assign_ids 1 (Core.accumulate candidates)) eqn:E;
      [discriminate|].
    injection H as <-. cbn [Core.test_cases Core.bundle_of].
    split; [exact Hf|]. rewrite Hk. apply accumulate_keys.
Qed.


Example reconcile_two_candidates :
  Core.reconcile [structured_candidate; tabular_candidate] None None []
  = Core.Bundle
      (Core.mkBundle
         [ Core.mkTestCaseRecord "TC_001" "test_push" "Push on  empty stack"
             "1" "ok" Core.positive
             "void test_push(void) { TEST_ASSERT(push(1)); }";
           Core.mkTestCaseRecord "TC_002" "test_pop" "pop returns last"
             "" "1" Core.positive
             "void test_pop(void) { TEST_ASSERT(pop() == 1); }";
           Core.mkTestCaseRecord "TC_003" "test_top" "top of stack" "" ""
             Core.boundary "void test_top(void) {}" ]
         None None
         (Core.mkSummary 3 ["test_push"; "test_pop"; "test_top"]%string [])).
Proof. reflexivity. Qed.

(** ** The reconciler: summary *)

Section SummaryFacts.
Import Core.

Lemma functions_tested_snoc (rs : list TestCaseRecord) (r : TestCaseRecord) :
  functions_tested (rs ++ [r])
  = if existsb (String.eqb (function_name r)) (functions_tested rs)
    then functions_tested rs
    else functions_tested rs ++ [function_name r].
Proof. unfold functions_tested. now rewrite fold_left_app. Qed.

Lemma existsb_eqb_In (x : string) (l : list string) :
  existsb (String.eqb x) l = true <-> In x l.
Proof.
  rewrite existsb_exists. split.
  - intros (y & Hy & E). apply String.eqb_eq in E. now subst.
  - intros H. exists x. split; [exact H | apply String.eqb_refl].
Qed.

Lemma functions_tested_In (rs : list TestCaseRecord) (x : string) :
  In x (functions_tested rs) <-> In x (map function_name rs).
Proof.
  induction rs as [|r rs IH] using rev_ind; [reflexivity|].
  rewrite functions_tested_snoc, map_app, in_app_iff. cbn [map In].
  destruct (existsb (String.eqb (function_name r)) (functions_tested rs))
    eqn:E.
  - apply existsb_eqb_In in E. rewrite IH. split; [tauto|].
    intros [H | [<- | []]]; [exact H | now apply IH].
  - rewrite in_app_iff, IH. cbn [In]. tauto.
Qed.

Lemma functions_tested_NoDup (rs : list TestCaseRecord) :
  NoDup (functions_tested rs).
Proof.
  induction rs as [|r rs IH] using rev_ind; [constructor|].
  rewrite functions_tested_snoc.
  destruct (existsb (String.eqb (function_name r)) (functions_tested rs))
    eqn:E; [exact IH|].
  apply NoDup_snoc; [exact IH|]. intros H. apply existsb_eqb_In in H.
  congruence.
Qed.

Lemma index_of_app_in (x : string) (l l' : list string) :
  In x l -> index_of x (l ++ l') = index_of x l.
Proof.
  induction l as [|y l IH]; intros H; [destruct H|].
  simpl. destruct (String.eqb_spec x y); [reflexivity|].
  f_equal. apply IH. destruct H; congruence.
Qed.

Lemma index_of_app_out (x : string) (l l' : list string) :
  ~ In x l -> index_of x (l ++ l') = List.length l + index_of x l'.
Proof.
  induction l as [|y l IH]; intros H; [reflexivity|].
  simpl. destruct (String.eqb_spec x y) as [->|_].
  - exfalso. apply H. now left.
  - f_equal. apply IH. intros Hin. apply H. now right.
Qed.

Lemma index_of_in_bound (x : string) (l : list string) :
  In x l -> index_of x l < List.length l.
Proof.
  induction l as [|y l IH]; intros H; [destruct H|].
  simpl. destruct (String.eqb_spec x y); [lia|].
  apply -> Nat.succ_lt_mono. apply IH. destruct H; congruence.
Qed.

Lemma index_of_last (x : string) (l : list string) :
  ~ In x l -> index_of x (l ++ [x]) = List.length l.
Proof.
  intros H. rewrite index_of_app_out by exact H. simpl.
  rewrite String.eqb_refl. lia.
Qed.

(** First-seen order: two tested names stand in [functions_tested] as their
    first occurrences stand in the list of records. *)
Lemma functions_tested_order (rs : list TestCaseRecord) (x y : string) :
  In x (map function_name rs) ->
  In y (map function_name rs) ->
  (index_of x (functions_tested rs) < index_of y (functions_tested rs)
   <-> index_of x (map function_name rs) < index_of y (map function_name rs)).
Proof.
  induction rs as [|r rs IH] using rev_ind; intros Hx Hy; [destruct Hx|].
  rewrite functions_tested_snoc. rewrite map_app in *. cbn [map] in *.
  set (names := map function_name rs) in *.
  set (n := function_name r) in *.
  destruct (existsb (String.eqb n) (functions_tested rs)) eqn:E.
  - apply existsb_eqb_In, functions_tested_In in E. fold names in E.
    assert (Hx' : In x names)
      by (apply in_app_iff in Hx as [H | [<- | []]]; assumption).
    assert (Hy' : In y names)
      by (apply in_app_iff in Hy as [H | [<- | []]]; assumption).
    rewrite !index_of_app_in by assumption. now apply IH.
  - assert (Hn : ~ In n names).
    { intros H. apply functions_tested_In, existsb_eqb_In in H.
      congruence. }
    assert (Hn' : ~ In n (functions_tested rs))
      by (intros H; apply Hn; now apply functions_tested_In in H).
    assert (Hlast : forall z, In z (names ++ [n]) -> In z names \/ z = n).
    { intros z H. apply in_app_iff in H as [H | [<- | []]]; auto. }
    destruct (in_dec string_dec x names) as [Hx' | Hx'];
      destruct (in_dec string_dec y names) as [Hy' | Hy'].
    + rewrite !index_of_app_in
        by (assumption || now apply functions_tested_In).
      now apply IH.
    + assert (y = n) as -> by (destruct (Hlast y Hy); tauto).
      rewrite (index_of_app_in x), (index_of_app_in x)
        by (assumption || now apply functions_tested_In).
      rewrite !index_of_last by assumption.
      split; intros _.
      * now apply index_of_in_bound.
      * apply index_of_in_bound. now apply functions_tested_In.
    + assert (x = n) as -> by (destruct (Hlast x Hx); tauto).
      rewrite (index_of_app_in y), (index_of_app_in y)
        by (assumption || now apply functions_tested_In).
      rewrite !index_of_last by assumption.
      pose proof (index_of_in_bound y names Hy').
      assert (In y (functions_tested rs)) as Hy2
        by now apply functions_tested_In.
      pose proof (index_of_in_bound y _ Hy2). lia.
    + assert (x = n) as -> by (destruct (Hlast x Hx); tauto).
      assert (y = n) as -> by (destruct (Hlast y Hy); tauto).
      lia.
Qed.

End SummaryFacts.

(** C4: in a bundle built by the reconciler, [total_tests] is the length of
    [test_cases], and [functions_tested] lists the function names of
    [test_cases] once each, in the order of their first occurrences; both
    are computed from [test_cases], whatever scripts and coverage areas
    come with them. *)
Theorem summary_derived_from_test_cases :
  (forall final runner build areas,
      let b := Core.bundle_of final runner build areas in
      let names := map Core.function_name (Core.test_cases b) in
      let tested := Core.summary_functions_tested (Core.summary b) in
      Core.total_tests (Core.summary b) = List.length (Core.test_cases b)
      /\ NoDup tested
      /\ (forall x, In x tested <-> In x names)
      /\ (forall x y, In x names -> In y names ->
            (index_of x tested < index_of y tested
             <-> index_of x names < index_of y names)))
  /\ (forall candidates runner build areas b,
        Core.reconcile candidates runner build areas = Core.Bundle b ->
        Core.total_tests (Core.summary b) = List.length (Core.test_cases b)
        /\ Core.summary_functions_tested (Core.summary b)
           = Core.functions_tested (Core.test_cases b)
        /\ b = Core.bundle_of (Core.test_cases b) runner build areas).
Proof.
  split.
  - intros final runner build areas. cbn zeta.
    cbn [Core.bundle_of Core.summary Core.test_cases Core.total_tests
         Core.summary_functions_tested].
    split; [reflexivity|]. split; [apply functions_tested_NoDup|].
    split; [intros x; apply functions_tested_In|].
    intros x y. apply functions_tested_order.
  - intros candidates runner build areas b H. unfold Core.reconcile in H.
    destruct (Core.assign_ids 1 (Core.accumulate candidates)) eqn:E;
      [discriminate|].
    injection H as <-. repeat split.
Qed.

Example functions_tested_first_seen :
  Core.functions_tested
    [ Core.mkTestCaseRecord "TC_001" "push" "a" "" "" Core.positive "x";
      Core.mkTestCaseRecord "TC_002" "pop" "b" "" "" Core.positive "y";
      Core.mkTestCaseRecord "TC_003" "push" "c" "" "" Core.negative "z" ]
  = ["push"; "pop"]%string.
Proof. reflexivity. Qed.

(** * Further properties of the components *)

(** ** FileUpload: handlers, identifiers, the page *)

Section FileUploadMore.
Import FileUpload FileUploadEvents.

Lemma newFiles_ids (random : nat -> string) (fileList : list File) :
  forall k,
    map id (newFiles random k fileList)
    = map random (seq k (List.length fileList)).
Proof.
  induction fileList as [|file rest IH]; intros k; [reflexivity|].
  cbn [newFiles map List.length seq]. now rewrite IH.
Qed.

Lemma newFiles_length (random : nat -> string) (fileList : list File) :
  forall k, List.length (newFiles random k fileList) = List.length fileList.
Proof.
  induction fileList as [|file rest IH]; intros k; [reflexivity|].
  cbn [newFiles List.length]. now rewrite IH.
Qed.

Lemma filter_keeps_all {A : Type} (keep : A -> bool) (l : list A) :
  (forall x, In x l -> keep x = true) -> filter keep l = l.
Proof.
  induction l as [|x l IH]; intros H; [reflexivity|].
  cbn [filter]. rewrite (H x) by now left.
  f_equal. apply IH. intros y Hy. apply H. now right.
Qed.

Lemma filter_map_NoDup {A B : Type} (f : A -> B) (keep : A -> bool)
      (l : list A) :
  NoDup (map f l) -> NoDup (map f (filter keep l)).
Proof.
  induction l as [|x l IH]; intros H; [constructor|].
  cbn [map] in H. inversion H as [|? ? Hx Hl]; subst.
  cbn [filter]. destruct (keep x); [|now apply IH].
  cbn [map]. constructor; [|now apply IH].
  intros Hin. apply Hx. apply in_map_iff in Hin as (y & Ey & Hy).
  apply filter_In in Hy as [Hy _]. rewrite <- Ey. now apply in_map.
Qed.

Lemma remove_one_of_distinct (l : list UploadedFile) (id0 : string) :
  NoDup (map id l) ->
  In id0 (map id l) ->
  List.length (filter (fun f => negb (String.eqb (id f) id0)) l) + 1
  = List.length l.
Proof.
  induction l as [|x l IH]; intros Hnd Hin; [destruct Hin|].
  cbn [map] in Hnd. inversion Hnd as [|? ? Hx Hl]; subst.
  cbn [filter List.length]. destruct (String.eqb_spec (id x) id0) as [E|E].
  - cbn [negb]. rewrite filter_keeps_all; [lia|].
    intros y Hy. apply negb_true_iff, String.eqb_neq. intros Ey.
    apply Hx. rewrite E, <- Ey. now apply in_map.
  - cbn [negb List.length]. rewrite <- IH; [lia | assumption|].
    destruct Hin as [Hin|Hin]; [contradiction | assumption].
Qed.

Lemma last_reported_step (st : State) (e : Event) :
  last (onFilesChange_calls st) [] = files st ->
  last (onFilesChange_calls (handle st e)) [] = files (handle st e).
Proof.
  intros H. destruct e as [[| |]|random dropped|random [selected|]|id0];
    cbn [handle handleDrag handleDrop handleFileInput setDragActive];
    try exact H;
    unfold processFiles_of, processFiles, removeFile, onFilesChange, setFiles;
    cbn [files onFilesChange_calls]; apply last_last.
Qed.

Lemma after_files_changes_last
      (calls : list (list UploadedFile)) (page : Index.State) :
  Index.uploadedFiles (Index.after_files_changes calls page)
  = last calls (Index.uploadedFiles page)
  /\ Index.testResults (Index.after_files_changes calls page)
     = Index.testResults page.
Proof.
  unfold Index.after_files_changes.
  induction calls as [|fs calls IH] using rev_ind; [now split|].
  rewrite fold_left_app, last_last. cbn [fold_left Index.handleFilesChange
    Index.uploadedFiles Index.testResults]. split; [reflexivity | apply IH].
Qed.

End FileUploadMore.

(** X1: whatever the user does to the upload component (drag, drop, choose
    files, remove), the list last passed to [onFilesChange] is the
    component's own list, so the page's [uploadedFiles] equals it; the
    page's test results are not touched by uploads. *)
Theorem page_sees_the_upload_list (events : list FileUploadEvents.Event) :
  let st := FileUploadEvents.run events in
  let page :=
    Index.after_files_changes (FileUpload.onFilesChange_calls st)
                              Index.initial in
  last (FileUpload.onFilesChange_calls st) [] = FileUpload.files st
  /\ Index.uploadedFiles page = FileUpload.files st
  /\ Index.testResults page = Js.Null.
Proof.
  cbn zeta.
  assert (H : last (FileUpload.onFilesChange_calls
                      (FileUploadEvents.run events)) []
              = FileUpload.files (FileUploadEvents.run events)).
  { unfold FileUploadEvents.run.
    apply (fold_left_invariant
             (fun st => last (FileUpload.onFilesChange_calls st) []
                        = FileUpload.files st));
      [apply last_reported_step | reflexivity]. }
  destruct (after_files_changes_last
              (FileUpload.onFilesChange_calls (FileUploadEvents.run events))
              Index.initial) as [Hu Ht].
  split; [exact H|]. split; [|exact Ht]. rewrite Hu. exact H.
Qed.

(** X2: files chosen through the file input are appended to the list, while
    a drop replaces the list: after a drop the component holds the dropped
    files only, whatever it held before, and reports just those. *)
Theorem drop_replaces_input_appends
        (random : nat -> string) (fileList : list FileUpload.File)
        (st : FileUpload.State) :
  let dropped := FileUploadEvents.handleDrop random fileList st in
  let chosen := FileUploadEvents.handleFileInput random (Some fileList) st in
  FileUpload.files dropped = FileUpload.newFiles random 0 fileList
  /\ List.length (FileUpload.files dropped) = List.length fileList
  /\ FileUpload.onFilesChange_calls dropped
     = FileUpload.onFilesChange_calls st
       ++ [FileUpload.newFiles random 0 fileList]
  /\ FileUpload.dragActive dropped = false
  /\ FileUpload.files chosen
     = FileUpload.files st ++ FileUpload.newFiles random 0 fileList
  /\ List.length (FileUpload.files chosen)
     = List.length (FileUpload.files st) + List.length fileList
  /\ FileUpload.dragActive chosen = FileUpload.dragActive st.
Proof.
  cbn zeta.
  unfold FileUploadEvents.handleDrop, FileUploadEvents.processFiles_of,
    FileUploadEvents.handleFileInput, FileUpload.processFiles,
    FileUpload.onFilesChange, FileUpload.setFiles,
    FileUploadEvents.setDragActive.
  cbn [FileUpload.files FileUpload.onFilesChange_calls FileUpload.dragActive
       FileUpload.initial app].
  split; [reflexivity|]. split; [apply newFiles_length|].
  split; [reflexivity|]. split; [reflexivity|]. split; [reflexivity|].
  split; [|reflexivity]. rewrite length_app. f_equal. apply newFiles_length.
Qed.

(** X3: the entries [processFiles] creates take their ids from the random
    strings drawn, one per file in order; when the strings drawn are
    pairwise distinct and none is an id already in the list, the ids of the
    list stay pairwise distinct. *)
Theorem fresh_random_ids_stay_distinct
        (random : nat -> string) (fileList : list FileUpload.File)
        (st : FileUpload.State) :
  NoDup (map FileUpload.id (FileUpload.files st)
         ++ map random (seq 0 (List.length fileList))) ->
  let st' := FileUpload.processFiles random fileList st in
  map FileUpload.id (FileUpload.files st')
  = map FileUpload.id (FileUpload.files st)
    ++ map random (seq 0 (List.length fileList))
  /\ NoDup (map FileUpload.id (FileUpload.files st')).
Proof.
  intros H. cbn zeta. unfold FileUpload.processFiles,
    FileUpload.onFilesChange, FileUpload.setFiles.
  cbn [FileUpload.files]. rewrite map_app, newFiles_ids.
  split; [reflexivity | exact H].
Qed.


Lemma fresh_random_ids_witness :
  NoDup (map FileUpload.id (FileUpload.files FileUpload.initial)
         ++ map sample_random (seq 0 (List.length two_files)))
  /\ NoDup (map FileUpload.id
              (FileUpload.files
                 (FileUpload.processFiles sample_random two_files
                    FileUpload.initial))).
Proof.
  assert (H : NoDup (map FileUpload.id (FileUpload.files FileUpload.initial)
                     ++ map sample_random
                          (seq 0 (List.length two_files)))).
  { cbn. repeat constructor; cbn; intuition discriminate. }
  split; [exact H|].
  exact (proj2 (fresh_random_ids_stay_distinct
                  sample_random two_files FileUpload.initial H)).
Defined.

(** X4: when the ids in the list are pairwise distinct, removing an id that
    is in the list takes out exactly one file and leaves the ids distinct;
    removing an id that is not in the list leaves the list as it is, though
    [onFilesChange] is still called. *)
Theorem removeFile_with_distinct_ids
        (id0 : string) (st : FileUpload.State) :
  NoDup (map FileUpload.id (FileUpload.files st)) ->
  let st' := FileUpload.removeFile id0 st in
  NoDup (map FileUpload.id (FileUpload.files st'))
  /\ (In id0 (map FileUpload.id (FileUpload.files st)) ->
      List.length (FileUpload.files st') + 1
      = List.length (FileUpload.files st))
  /\ (~ In id0 (map FileUpload.id (FileUpload.files st)) ->
      FileUpload.files st' = FileUpload.files st
      /\ FileUpload.onFilesChange_calls st'
         = FileUpload.onFilesChange_calls st ++ [FileUpload.files st]).
Proof.
  intros Hnd. cbn zeta. unfold FileUpload.removeFile,
    FileUpload.onFilesChange, FileUpload.setFiles.
  cbn [FileUpload.files FileUpload.onFilesChange_calls].
  split; [now apply filter_map_NoDup|]. split.
  - intros Hin. now apply remove_one_of_distinct.
  - intros Hout.
    assert (E : filter (fun f => negb (String.eqb (FileUpload.id f) id0))
                       (FileUpload.files st) = FileUpload.files st).
    { apply filter_keeps_all. intros f Hf.
      apply negb_true_iff, String.eqb_neq. intros E. apply Hout.
      rewrite <- E. now apply in_map. }
    now rewrite E.
Qed.


Lemma removeFile_distinct_witness :
  NoDup (map FileUpload.id (FileUpload.files two_uploaded))
  /\ NoDup (map FileUpload.id
              (FileUpload.files (FileUpload.removeFile "1" two_uploaded))).
Proof.
  assert (H : NoDup (map FileUpload.id (FileUpload.files two_uploaded))).
  { cbn. repeat constructor; cbn; intuition discriminate. }
  split; [exact H|].
  exact (proj1 (removeFile_with_distinct_ids "1" two_uploaded H)).
Defined.

(** X5: choosing one file and then removing it by its id gives back the
    list there was, provided the id drawn for it is not already in use. *)
Theorem add_then_remove_restores
        (random : nat -> string) (file : FileUpload.File)
        (st : FileUpload.State) :
  ~ In (random 0) (map FileUpload.id (FileUpload.files st)) ->
  FileUpload.files
    (FileUpload.removeFile (random 0)
       (FileUploadEvents.handleFileInput random (Some [file]) st))
  = FileUpload.files st.
Proof.
  intros Hfresh. unfold FileUploadEvents.handleFileInput,
    FileUpload.processFiles, FileUpload.removeFile,
    FileUpload.onFilesChange, FileUpload.setFiles.
  cbn [FileUpload.files FileUpload.newFiles]. rewrite filter_app.
  cbn [filter FileUpload.id]. rewrite String.eqb_refl. cbn [negb].
  rewrite app_nil_r. apply filter_keeps_all. intros f Hf.
  apply negb_true_iff, String.eqb_neq. intros E. apply Hfresh.
  rewrite <- E. now apply in_map.
Qed.

Lemma add_then_remove_witness :
  ~ In (sample_random 0)
       (map FileUpload.id (FileUpload.files FileUpload.initial))
  /\ FileUpload.files
       (FileUpload.removeFile (sample_random 0)
          (FileUploadEvents.handleFileInput sample_random
             (Some [FileUpload.mkFile "stack.c" 120 "int top(void);"])
             FileUpload.initial))
     = FileUpload.files FileUpload.initial.
Proof.
  assert (H : ~ In (sample_random 0)
                   (map FileUpload.id (FileUpload.files FileUpload.initial)))
    by (cbn; tauto).
  split; [exact H|].
  exact (add_then_remove_restores sample_random
           (FileUpload.mkFile "stack.c" 120 "int top(void);")
           FileUpload.initial H).
Defined.

(** ** From the upload component to the request *)

Section UploadToRequest.
Import FileUpload.

Lemma newFiles_toFileData (random : nat -> string) (fileList : list File) :
  forall k,
    map Api.toFileData (newFiles random k fileList)
    = map (fun f => Api.mkFileData (file_name f) (file_text f) (file_size f))
          fileList.
Proof.
  induction fileList as [|file rest IH]; intros k; [reflexivity|].
  cbn [newFiles map]. rewrite IH. f_equal.
  unfold Api.toFileData. cbn [name content FileUpload.size].
  destruct (String.eqb_spec (file_text file) "") as [E|E];
    [now rewrite E | reflexivity].
Qed.

Lemma type_counts (fs : list UploadedFile) :
  View.sourceCount fs + View.headerCount fs = List.length fs.
Proof.
  unfold View.sourceCount, View.headerCount.
  induction fs as [|f fs IH]; [reflexivity|].
  cbn [filter]. destruct (type f); cbn [View.type_eqb List.length]; lia.
Qed.

Lemma newFiles_headerCount (random : nat -> string) (fileList : list File) :
  forall k,
    View.headerCount (newFiles random k fileList)
    = List.length (filter (fun f => Js.endsWith (file_name f) ".h") fileList).
Proof.
  unfold View.headerCount.
  induction fileList as [|file rest IH]; intros k; [reflexivity|].
  cbn [newFiles filter type]. unfold fileType at 1.
  destruct (Js.endsWith (file_name file) ".h");
    cbn [View.type_eqb List.length]; now rewrite IH.
Qed.

End UploadToRequest.

(** X6: the two counts under "Files Ready" add up to the number of files;
    for files that went through [processFiles] the header count is the
    number of names ending in [".h"], every other file counting as
    source. *)
Theorem file_counts_partition :
  (forall fs, View.sourceCount fs + View.headerCount fs = List.length fs)
  /\ (forall random fileList k,
        View.headerCount (FileUpload.newFiles random k fileList)
        = List.length
            (filter (fun f => Js.endsWith (FileUpload.file_name f) ".h")
                    fileList)
        /\ View.sourceCount (FileUpload.newFiles random k fileList)
           = List.length
               (filter (fun f =>
                          negb (Js.endsWith (FileUpload.file_name f) ".h"))
                       fileList)).
Proof.
  split; [apply type_counts|]. intros random fileList k.
  pose proof (newFiles_headerCount random fileList k) as Hh.
  split; [exact Hh|].
  pose proof (type_counts (FileUpload.newFiles random k fileList)) as Hsum.
  pose proof (filter_complement_length
                (fun f => Js.endsWith (FileUpload.file_name f) ".h")
                fileList) as Hc.
  rewrite newFiles_length in Hsum. lia.
Qed.

(** X7: files chosen in the upload component reach the backend with the
    text read from them: when the generation component is given the list
    the upload component reports after a choice, the one body it posts
    holds the records of the files there were, followed by one record per
    chosen file with its name, its text and its size. *)
Theorem chosen_files_are_posted_with_their_text
        (random : nat -> string) (fileList : list FileUpload.File)
        (st : FileUpload.State) (c : Api.Component)
        (fr : Api.FetchResult) :
  fileList <> [] ->
  Api.files c
  = FileUpload.files
      (FileUploadEvents.handleFileInput random (Some fileList) st) ->
  Api.requests (Api.generateTests fr c)
  = Api.requests c
    ++ [ map Api.toFileData (FileUpload.files st)
         ++ map (fun f => Api.mkFileData (FileUpload.file_name f)
                            (FileUpload.file_text f)
                            (FileUpload.file_size f))
                fileList ].
Proof.
  intros Hne Hfiles.
  assert (E : Api.files c
              = FileUpload.files st ++ FileUpload.newFiles random 0 fileList)
    by exact Hfiles.
  assert (Hc : Api.files c <> []).
  { rewrite E. destruct fileList as [|f rest]; [congruence|].
    cbn [FileUpload.newFiles]. intros H. apply app_eq_nil in H as [_ H].
    discriminate. }
  unfold Api.generateTests. rewrite start_with_files by exact Hc.
  rewrite (proj2 (resume_keeps_files_and_requests fr _)).
  cbn [Api.requests Api.post Api.setProgress Api.setCurrentStep
       Api.setStatus]. rewrite E, map_app, newFiles_toFileData.
  reflexivity.
Qed.

Lemma chosen_files_witness :
  two_files <> []
  /\ Api.requests
       (Api.generateTests error_response
          (Api.initial
             (FileUpload.files
                (FileUploadEvents.handleFileInput sample_random
                   (Some two_files) FileUpload.initial))))
     = [ [ Api.mkFileData "stack.c" "int top(void);" 120;
           Api.mkFileData "stack.h" "int top(void);" 40 ] ].
Proof.
  assert (H : two_files <> []) by discriminate.
  split; [exact H|].
  exact (chosen_files_are_posted_with_their_text
           sample_random two_files FileUpload.initial
           (Api.initial
              (FileUpload.files
                 (FileUploadEvents.handleFileInput sample_random
                    (Some two_files) FileUpload.initial)))
           error_response H eq_refl).
Defined.

(** ** The backend-calling version: what is observable *)


Section ApiObservable.
Import TestGeneration.

Lemma resume_outcomes (fr : Api.FetchResult) (c : Api.Component) :
  (success_with_data fr = false
   /\ exists e, Api.generateTests_resume fr c = Api.generateTests_catch e c)
  \/ (success_with_data fr = true
      /\ exists d tc rs mk,
           Js.truthy d = true
           /\ Api.generateTests_resume fr c = succeeded d tc rs mk c).
Proof.
  destruct (success_with_data fr) eqn:E.
  - right. split; [reflexivity|].
    apply success_with_data_inv in E as (st0 & resp & d & -> & Hs & Hd & Ht).
    destruct (resume_success st0 resp d c Hs Hd Ht)
      as (tc & rs & mk & _ & _ & _ & H).
    now exists d, tc, rs, mk.
  - left. split; [reflexivity|]. now apply resume_failure.
Qed.

Lemma api_accounted_step (r : Api.Running) (e : Api.Event) :
  api_accounted r -> api_accounted (Api.step r e).
Proof.
  unfold api_accounted. intros Inv. destruct e as [|fr]; cbn [Api.step].
  - destruct (List.length (Api.files (Api.component r)) =? 0)%nat eqn:El;
      [exact Inv|]. cbn [orb].
    destruct (disabled (Api.status (Api.component r))); [exact Inv|].
    rewrite start_with_files by (intros E; rewrite E in El; discriminate).
    cbn [Api.component Api.in_flight Api.requests Api.onTestGenerated_calls
         Api.console Api.post Api.setProgress Api.setCurrentStep
         Api.setStatus].
    rewrite length_app. cbn [List.length]. lia.
  - destruct (Api.in_flight r) as [|n] eqn:En; [now rewrite En|].
    cbn [Api.component Api.in_flight].
    destruct (resume_cases fr (Api.component r))
      as [[e ->] | (d & tc & rs & mk & ->)].
    + unfold Api.generateTests_catch.
      cbn [Api.requests Api.onTestGenerated_calls Api.console
           Api.console_error Api.setCurrentStep Api.setStatus].
      rewrite length_app. cbn [List.length]. lia.
    + unfold succeeded.
      cbn [Api.requests Api.onTestGenerated_calls Api.console
           Api.onTestGenerated Api.setStatus Api.setTestScripts
           Api.setExcelData Api.setResults Api.setProgress
           Api.setCurrentStep].
      rewrite length_app. cbn [List.length]. lia.
Qed.

Lemma api_observable_step (r : Api.Running) (e : Api.Event) :
  api_observable r -> api_observable (Api.step r e).
Proof.
  unfold api_observable. cbn zeta. intros Inv.
  destruct e as [|fr]; cbn [Api.step].
  - destruct (List.length (Api.files (Api.component r)) =? 0)%nat eqn:El;
      [exact Inv|]. cbn [orb].
    destruct (disabled (Api.status (Api.component r))) eqn:Ed; [exact Inv|].
    rewrite start_with_files by (intros E; rewrite E in El; discriminate).
    right. left.
    assert (H0 : Api.in_flight r = 0).
    { destruct Inv as [H | [H | [H | H]]]; try tauto.
      destruct H as [Hs _]. rewrite Hs in Ed. discriminate. }
    rewrite H0. repeat split.
  - destruct (Api.in_flight r) as [|n] eqn:En; [now rewrite En|].
    assert (n = 0 /\ Api.progress (Api.component r) = 50) as [-> Hp].
    { destruct Inv as [H | [H | [H | H]]];
        destruct H as (_ & H & Hp & _); split; congruence. }
    cbn [Api.component Api.in_flight].
    destruct (resume_outcomes fr (Api.component r))
      as [[_ [e ->]] | [_ (d & tc & rs & mk & Ht & ->)]].
    + right. right. right. repeat split. exact Hp.
    + right. right. left. repeat split. exact Ht.
Qed.

End ApiObservable.

(** X8: in the backend-calling version, between any two events every body
    posted so far is matched by exactly one of: a call of
    [onTestGenerated], a line on the error console, a call still waiting
    for its response. *)
Theorem every_request_is_answered_once
        (fs : list FileUpload.UploadedFile) (events : list Api.Event) :
  let r := Api.run fs events in
  List.length (Api.requests (Api.component r))
  = List.length (Api.onTestGenerated_calls (Api.component r))
    + List.length (Api.console (Api.component r))
    + Api.in_flight r.
Proof.
  cbn zeta. unfold Api.run.
  apply (fold_left_invariant api_accounted);
    [apply api_accounted_step | reflexivity].
Qed.

(** X9: between events the backend-calling version is in one of four
    situations: idle with progress 0; generating with one call waiting and
    progress 50; completed with progress 100 and results present; failed
    with progress 50.  So the statuses ['parsing'] and ['running'] and the
    badge "Parsing..." are never on screen, a failure leaves the progress
    bar at 50, and the spinner shows exactly while a call is waiting. *)
Theorem api_shows_four_situations
        (fs : list FileUpload.UploadedFile) (events : list Api.Event) :
  let r := Api.run fs events in
  let c := Api.component r in
  api_observable r
  /\ Api.status c <> TestGeneration.parsing
  /\ Api.status c <> TestGeneration.running
  /\ View.text (View.getStatusBadge (Api.status c)) <> "Parsing..."
  /\ (View.getStatusIcon (Api.status c) = Some View.Loader2
      <-> Api.in_flight r = 1)
  /\ (Api.status c = TestGeneration.failed -> Api.progress c = 50).
Proof.
  cbn zeta.
  assert (Inv : api_observable (Api.run fs events)).
  { unfold Api.run. apply (fold_left_invariant api_observable);
      [apply api_observable_step|].
    left. repeat split. }
  split; [exact Inv|].
  unfold api_observable in Inv. cbn zeta in Inv.
  destruct Inv as [H | [H | [H | H]]];
    destruct H as (Hs & Hf & Hp & _); rewrite Hs, Hf;
    (split; [discriminate|]); (split; [discriminate|]);
    (split; [cbn; discriminate|]);
    (split; [cbn; split; intros; congruence|]);
    intros; congruence.
Qed.

(** ** The backend-calling version: one call *)

Section ApiOneCall.
Import TestGeneration.


Lemma generateTests_with_files (fr : Api.FetchResult) (c : Api.Component) :
  Api.files c <> [] ->
  Api.generateTests fr c = Api.generateTests_resume fr (awaiting c).
Proof.
  intros H. unfold Api.generateTests. now rewrite start_with_files.
Qed.

Lemma resume_error_body (st0 : string) (resp m : Js.Value)
      (c : Api.Component) :
  success_with_data (Api.Response true st0 (Some resp)) = false ->
  Js.get resp "message" = Some m ->
  Api.generateTests_resume (Api.Response true st0 (Some resp)) c
  = Api.generateTests_catch
      (Js.or_else m (Js.Str "Failed to generate tests")) c.
Proof.
  cbn [success_with_data]. intros Hfail Hm.
  assert (Hget : forall k, exists v, Js.get resp k = Some v).
  { intros k. destruct resp; try discriminate; eexists; reflexivity. }
  destruct (Hget "status") as [st Hst]. destruct (Hget "data") as [d Hd].
  rewrite Hst, Hd in Hfail.
  cbv beta iota delta [Api.generateTests_resume Api.generateTests_try
                       Api.bind Api.read Api.generateTestsAPI Api.ret
                       Api.throw Api.act].
  rewrite Hst. cbv beta iota delta [Api.ret].
  destruct (Js.strict_eq_str st "success"); cbn [andb] in Hfail.
  - rewrite Hd. cbv beta iota. rewrite Hfail, Hm. reflexivity.
  - cbv beta iota. cbn [Js.truthy]. rewrite Hm. reflexivity.
Qed.

End ApiOneCall.



(** X12: a response that is not [ok] fails the call with the message
    "Test generation failed: " followed by its status text, whatever its
    body holds, a success carrying data included; a response that is [ok]
    but not a success carrying data fails it with the body's [message], or
    with "Failed to generate tests" when the body has no truthy message.
    The callback is not called in either case.  (A thrown [Error] is
    represented by the value it is constructed from.) *)
Theorem failure_messages
        (c : Api.Component) (st0 : string) :
  Api.files c <> [] ->
  (forall body,
      let c' := Api.generateTests (Api.Response false st0 body) c in
      Api.status c' = TestGeneration.failed
      /\ Api.console c'
         = Api.console c
           ++ [Js.Str ("Test generation failed: " ++ st0)]
      /\ Api.onTestGenerated_calls c' = Api.onTestGenerated_calls c)
  /\ (forall resp m,
        success_with_data (Api.Response true st0 (Some resp)) = false ->
        Js.get resp "message" = Some m ->
        let c' := Api.generateTests (Api.Response true st0 (Some resp)) c in
        Api.status c' = TestGeneration.failed
        /\ Api.console c'
           = Api.console c
             ++ [Js.or_else m (Js.Str "Failed to generate tests")]
        /\ Api.onTestGenerated_calls c' = Api.onTestGenerated_calls c).
Proof.
  intros Hfiles. split.
  - intros body. cbn zeta. rewrite generateTests_with_files by exact Hfiles.
    repeat split.
  - intros resp m Hfail Hm. cbn zeta.
    rewrite generateTests_with_files by exact Hfiles.
    rewrite (resume_error_body st0 resp m _ Hfail Hm). repeat split.
Qed.

Lemma failure_messages_witness :
  Api.files (Api.initial one_file) <> []
  /\ Api.console
       (Api.generateTests
          (Api.Response false "Internal Server Error"
             (Some (Js.Obj [ ("status", Js.Str "success");
                             ("data", Js.Obj []) ])))
          (Api.initial one_file))
     = [Js.Str "Test generation failed: Internal Server Error"].
Proof.
  assert (H : Api.files (Api.initial one_file) <> []) by discriminate.
  split; [exact H|].
  destruct (proj1 (failure_messages (Api.initial one_file)
                     "Internal Server Error" H)
              (Some (Js.Obj [ ("status", Js.Str "success");
                              ("data", Js.Obj []) ])))
    as (_ & Hc & _).
  exact Hc.
Defined.

(** ** The report rows: edge cases *)

Section ReportEdges.
Import TestGeneration.

Lemma or_else_NA_truthy (v : Js.Value) :
  Js.truthy (Js.or_else v (Js.Str "N/A")) = true.
Proof. unfold Js.or_else. destruct (Js.truthy v) eqn:E; [exact E|reflexivity]. Qed.

Lemma renderRow_none_iff (row : Js.Value) (index : nat) :
  renderRow row index = None <-> row = Js.Undefined \/ row = Js.Null.
Proof.
  destruct row; cbn; split; intros H; try discriminate; auto;
    destruct H; discriminate.
Qed.

Lemma renderRow_cells (row : Js.Value) (index : nat) (r : Row) :
  renderRow row index = Some r ->
  Js.truthy (cell_function_name r) = true
  /\ Js.truthy (cell_description r) = true
  /\ Js.truthy (cell_expected_result r) = true
  /\ cell_status r = "Pending".
Proof.
  unfold renderRow.
  destruct (Js.get row "function_name") as [f|]; [|discriminate].
  destruct (Js.get row "description") as [d|]; [|discriminate].
  destruct (Js.get row "expected_result") as [e|]; [|discriminate].
  intros [= <-]. cbn [cell_function_name cell_description
                      cell_expected_result cell_status].
  rewrite !or_else_NA_truthy. repeat split.
Qed.

Lemma mapRows_none_iff (items : list Js.Value) :
  forall index,
    mapRows items index = None
    <-> Exists (fun v => v = Js.Undefined \/ v = Js.Null) items.
Proof.
  induction items as [|row rest IH]; intros index; cbn [mapRows].
  - split; [discriminate | intros H; inversion H].
  - rewrite Exists_cons, <- (IH (S index)), <- (renderRow_none_iff row index).
    destruct (renderRow row index), (mapRows rest (S index)); split;
      intros H; try discriminate; auto; destruct H; discriminate.
Qed.

Lemma mapRows_some (items : list Js.Value) :
  forall index rows,
    mapRows items index = Some rows ->
    List.length rows = List.length items
    /\ Forall (fun r => Js.truthy (cell_function_name r) = true
                        /\ Js.truthy (cell_description r) = true
                        /\ Js.truthy (cell_expected_result r) = true
                        /\ cell_status r = "Pending") rows.
Proof.
  induction items as [|row rest IH]; intros index rows; cbn [mapRows].
  - intros [= <-]. split; [reflexivity | constructor].
  - destruct (renderRow row index) as [r|] eqn:Er; [|discriminate].
    destruct (mapRows rest (S index)) as [rs|] eqn:Ers; [|discriminate].
    intros [= <-]. destruct (IH (S index) rs Ers) as [Hl Hf].
    split; [cbn; now rewrite Hl|].
    constructor; [exact (renderRow_cells row index r Er) | exact Hf].
Qed.

Lemma fill_length (pad : string) :
  pad <> "" ->
  forall n cur, String.length (Js.fill n pad cur) = n.
Proof.
  intros Hpad. induction n as [|n IH]; intros cur; [reflexivity|].
  cbn [Js.fill]. destruct cur as [|c rest].
  - destruct pad as [|c rest]; [congruence|]. cbn. now rewrite IH.
  - cbn. now rewrite IH.
Qed.

Lemma padStart_length (s pad : string) (target : nat) :
  pad <> "" ->
  String.length (Js.padStart s target pad)
  = Nat.max target (String.length s).
Proof.
  intros Hpad. unfold Js.padStart.
  destruct (Nat.leb_spec target (String.length s)); [lia|].
  rewrite length_append, fill_length by exact Hpad. lia.
Qed.

Lemma id_width_up_to_999 :
  forallb (fun i => (String.length (Js.String_of_nat (i + 1)) <=? 3)%nat)
          (seq 0 999) = true.
Proof. vm_compute. reflexivity. Qed.

End ReportEdges.


(** X14: the identifier of a row has three characters for ["TC_"] plus
    the larger of three and the number of digits of the row number; up to
    the 999th row that is exactly six characters. *)
Theorem row_id_width (row : Js.Value) (index : nat)
        (r : TestGeneration.Row) :
  TestGeneration.renderRow row index = Some r ->
  String.length (TestGeneration.cell_id r)
  = 3 + Nat.max 3 (String.length (Js.String_of_nat (index + 1)))
  /\ (index < 999 -> String.length (TestGeneration.cell_id r) = 6).
Proof.
  unfold TestGeneration.renderRow.
  destruct (Js.get row "function_name"); [|discriminate].
  destruct (Js.get row "description"); [|discriminate].
  destruct (Js.get row "expected_result"); [|discriminate].
  intros [= <-]. cbn [TestGeneration.cell_id].
  cbn [String.length]. rewrite padStart_length by discriminate.
  split; [reflexivity|]. intros Hlt.
  pose proof id_width_up_to_999 as H. rewrite forallb_forall in H.
  specialize (H index). rewrite in_seq in H.
  assert (Hle : (String.length (Js.String_of_nat (index + 1)) <=? 3)%nat
                = true) by (apply H; lia).
  apply Nat.leb_le in Hle. lia.
Qed.

Lemma row_id_width_witness :
  TestGeneration.renderRow (Js.Obj []) 41
  = Some (TestGeneration.mkRow "TC_042" (Js.Str "N/A") (Js.Str "N/A")
            (Js.Str "N/A") "Pending")
  /\ String.length "TC_042" = 6.
Proof.
  assert (H : TestGeneration.renderRow (Js.Obj []) 41
              = Some (TestGeneration.mkRow "TC_042" (Js.Str "N/A")
                        (Js.Str "N/A") (Js.Str "N/A") "Pending"))
    by reflexivity.
  split; [exact H|].
  apply (proj2 (row_id_width (Js.Obj []) 41 _ H)). lia.
Defined.

Example row_id_1000 :
  option_map TestGeneration.cell_id
             (TestGeneration.renderRow (Js.Obj []) 999)
  = Some "TC_1000".
Proof. reflexivity. Qed.

(** ** The simulated versions *)


Section SimulatedFacts.
Import TestGeneration.
Variable steps : list Simulated.Step.
Variable finalResults : Js.Value.

Lemma iteration_step (k : nat) (st : Simulated.Step)
      (c : Simulated.Component) :
  nth_error steps k = Some st ->
  Simulated.iteration steps finalResults k c
  = Simulated.await k
      (Simulated.setProgress (Simulated.step_progress st)
         (Simulated.setStatus (Simulated.step_id st)
            (Simulated.setCurrentStep (Simulated.label st) c))).
Proof. intros H. unfold Simulated.iteration. now rewrite H. Qed.

Lemma iteration_end (k : nat) (c : Simulated.Component) :
  nth_error steps k = None ->
  Simulated.iteration steps finalResults k c
  = Simulated.onTestGenerated finalResults
      (Simulated.setStatus completed
         (Simulated.setResults finalResults c)).
Proof. intros H. unfold Simulated.iteration. now rewrite H. Qed.

Lemma iteration_invariant (k : nat) (c : Simulated.Component) :
  Forall (fun st => Simulated.step_id st <> failed) steps ->
  Forall (eq finalResults) (Simulated.onTestGenerated_calls c) ->
  Simulated.results c = Js.Null \/ Simulated.results c = finalResults ->
  simulated_invariant finalResults
    (Simulated.iteration steps finalResults k c).
Proof.
  intros Hsteps Hcalls Hres. destruct (nth_error steps k) as [st|] eqn:E.
  - rewrite (iteration_step k st c E). repeat split; try assumption.
    cbn. rewrite Forall_forall in Hsteps.
    apply Hsteps. now apply nth_error_In in E.
  - rewrite (iteration_end k c E). repeat split.
    + cbn. discriminate.
    + cbn. apply Forall_app. split; [exact Hcalls|]. now constructor.
    + now right.
Qed.

Lemma simulated_step_invariant (c : Simulated.Component)
      (e : Simulated.Event) :
  Forall (fun st => Simulated.step_id st <> failed) steps ->
  simulated_invariant finalResults c ->
  simulated_invariant finalResults (Simulated.step steps finalResults c e).
Proof.
  intros Hsteps (Hs & Hc & Hr). destruct e; cbn [Simulated.step].
  - destruct ((List.length (Simulated.files c) =? 0)%nat
              || disabled (Simulated.status c)); [now repeat split|].
    unfold Simulated.generateTests. now apply iteration_invariant.
  - destruct (Simulated.waiting c) as [|k rest]; [now repeat split|].
    now apply iteration_invariant.
Qed.

Lemma run_snoc (fs : list FileUpload.UploadedFile)
      (events : list Simulated.Event) (e : Simulated.Event) :
  Simulated.run steps finalResults fs (events ++ [e])
  = Simulated.step steps finalResults
      (Simulated.run steps finalResults fs events) e.
Proof. unfold Simulated.run. now rewrite fold_left_app. Qed.

(** One run, timer by timer. *)
Lemma single_run_trace (fs : list FileUpload.UploadedFile) :
  fs <> [] ->
  forall j,
    j <= List.length steps ->
    let c := Simulated.run steps finalResults fs
               (Simulated.Click :: repeat Simulated.Timeout j) in
    match nth_error steps j with
    | Some st =>
        Simulated.status c = Simulated.step_id st
        /\ Simulated.progress c = Simulated.step_progress st
        /\ Simulated.currentStep c = Simulated.label st
        /\ Simulated.waiting c = [j]
        /\ Simulated.onTestGenerated_calls c = []
        /\ Simulated.results c = Js.Null
    | None =>
        Simulated.status c = completed
        /\ Simulated.results c = finalResults
        /\ Simulated.onTestGenerated_calls c = [finalResults]
        /\ Simulated.waiting c = []
    end.
Proof.
  intros Hfs. cbn zeta. induction j as [|j IH]; intros Hj.
  - cbn [repeat]. unfold Simulated.run. cbn [fold_left Simulated.step].
    destruct fs as [|f rest]; [congruence|].
    cbn [Simulated.initial Simulated.files List.length Nat.eqb orb
         Simulated.status disabled status_eqb negb andb].
    unfold Simulated.generateTests.
    destruct (nth_error steps 0) as [st|] eqn:E.
    + rewrite (iteration_step 0 st _ E). repeat split.
    + rewrite (iteration_end 0 _ E). repeat split.
  - assert (Hlt : j < List.length steps) by lia.
    destruct (nth_error steps j) as [st|] eqn:E;
      [|apply nth_error_None in E; lia].
    specialize (IH (Nat.lt_le_incl _ _ Hlt)).
    destruct IH as (_ & _ & _ & Hw & Hc & Hr).
    cbn [repeat]. rewrite repeat_cons, app_comm_cons, run_snoc.
    cbn [Simulated.step]. rewrite Hw.
    destruct (nth_error steps (S j)) as [st'|] eqn:E'.
    + rewrite (iteration_step (S j) st' _ E').
      cbn [Simulated.status Simulated.progress Simulated.currentStep
           Simulated.waiting Simulated.onTestGenerated_calls
           Simulated.results Simulated.await Simulated.setProgress
           Simulated.setStatus Simulated.setCurrentStep Simulated.wake].
      rewrite Hw, Hc, Hr. repeat split.
    + rewrite (iteration_end (S j) _ E').
      cbn [Simulated.status Simulated.waiting
           Simulated.onTestGenerated_calls Simulated.results
           Simulated.onTestGenerated Simulated.setStatus
           Simulated.setResults Simulated.wake].
      rewrite Hw, Hc. repeat split.
Qed.

Lemma simulated_invariant_run (fs : list FileUpload.UploadedFile)
      (events : list Simulated.Event) :
  Forall (fun st => Simulated.step_id st <> failed) steps ->
  simulated_invariant finalResults
    (Simulated.run steps finalResults fs events).
Proof.
  intros Hsteps. unfold Simulated.run.
  apply (fold_left_invariant (simulated_invariant finalResults)).
  - intros c e. now apply simulated_step_invariant.
  - repeat split; [discriminate | constructor | now left].
Qed.

End SimulatedFacts.

(** X15: in a simulated version a click on the idle component starts one
    run that goes through the steps in order, one per timer: after [j]
    timers it shows the status, progress and label of step [j] and has
    called nothing; after as many timers as there are steps it is
    ['completed'], holds the final results and has called
    [onTestGenerated] once with them. *)
Theorem simulated_run_follows_steps
        (steps : list Simulated.Step) (finalResults : Js.Value)
        (fs : list FileUpload.UploadedFile) (j : nat) :
  fs <> [] ->
  j <= List.length steps ->
  let c := Simulated.run steps finalResults fs
             (Simulated.Click :: repeat Simulated.Timeout j) in
  (forall st,
      nth_error steps j = Some st ->
      Simulated.status c = Simulated.step_id st
      /\ Simulated.progress c = Simulated.step_progress st
      /\ Simulated.currentStep c = Simulated.label st
      /\ Simulated.in_flight c = 1
      /\ Simulated.onTestGenerated_calls c = []
      /\ Simulated.results c = Js.Null)
  /\ (j = List.length steps ->
      Simulated.status c = TestGeneration.completed
      /\ Simulated.results c = finalResults
      /\ Simulated.onTestGenerated_calls c = [finalResults]
      /\ Simulated.in_flight c = 0).
Proof.
  intros Hfs Hj. cbn zeta.
  pose proof (single_run_trace steps finalResults fs Hfs j Hj) as H.
  cbn zeta in H. unfold Simulated.in_flight. split.
  - intros st E. rewrite E in H.
    destruct H as (H1 & H2 & H3 & H4 & H5 & H6). rewrite H4.
    repeat split; assumption.
  - intros ->.
    assert (E : nth_error steps (List.length steps) = None)
      by (apply nth_error_None; lia).
    rewrite E in H. destruct H as (H1 & H2 & H3 & H4). rewrite H4.
    repeat split; assumption.
Qed.

Lemma simulated_run_witness :
  one_file <> []
  /\ 2 <= List.length Simulated.TwoStep.steps
  /\ Simulated.status
       (Simulated.run Simulated.TwoStep.steps Simulated.TwoStep.finalResults
          one_file (Simulated.Click :: repeat Simulated.Timeout 2))
     = TestGeneration.completed.
Proof.
  assert (H1 : one_file <> []) by discriminate.
  assert (H2 : 2 <= List.length Simulated.TwoStep.steps) by (cbn; lia).
  split; [exact H1|]. split; [exact H2|].
  destruct (proj2 (simulated_run_follows_steps
                     Simulated.TwoStep.steps Simulated.TwoStep.finalResults
                     one_file 2 H1 H2) eq_refl) as (Hs & _).
  exact Hs.
Defined.

(** X16: the two simulated versions never fail and never report anything
    but their built-in object: in every reachable state the status is not
    ['failed'], every argument [onTestGenerated] has been called with is
    the mock results (four steps) or [{generated: true}] (two steps), and
    [results] is [null] or that object. *)
Theorem simulated_versions_report_built_in_results
        (fs : list FileUpload.UploadedFile)
        (events : list Simulated.Event) :
  simulated_invariant Simulated.FourStep.mockResults
    (Simulated.FourStep.run fs events)
  /\ simulated_invariant Simulated.TwoStep.finalResults
       (Simulated.TwoStep.run fs events).
Proof.
  split.
  - apply simulated_invariant_run. repeat constructor; discriminate.
  - apply simulated_invariant_run. repeat constructor; discriminate.
Qed.

(** ** The page banner *)

Section BannerFacts.

Lemma after_tests_generated_last (calls : list Js.Value)
      (page : Index.State) :
  Index.testResults (Index.after_tests_generated calls page)
  = last calls (Index.testResults page)
  /\ Index.uploadedFiles (Index.after_tests_generated calls page)
     = Index.uploadedFiles page.
Proof.
  unfold Index.after_tests_generated.
  induction calls as [|v calls IH] using rev_ind; [now split|].
  rewrite fold_left_app, last_last.
  cbn [fold_left Index.handleTestGenerated Index.uploadedFiles
       Index.testResults]. split; [reflexivity | apply IH].
Qed.

Lemma last_of_constant {A : Type} (x d : A) (l : list A) :
  Forall (eq x) l -> last l d = d \/ last l d = x.
Proof.
  induction l as [|y l IH] using rev_ind; intros H; [now left|].
  rewrite last_last. right. apply Forall_app in H as [_ H].
  inversion H; subst. reflexivity.
Qed.

Lemma banner_of_results (page : Index.State) (v : Js.Value) :
  Index.testResults page = v ->
  Index.banner page = Index.banner (Index.mkState [] v).
Proof. intros <-. reflexivity. Qed.

End BannerFacts.

(** X17: the page shows the banner from the last value passed to
    [onTestGenerated].  With the four-step version the banner, once shown,
    reads 12 tests, 85.5 and "2.34s"; with the two-step version it is
    shown with all three figures [undefined], since the object reported
    there has none of the fields the banner reads. *)
Theorem banner_after_simulated_runs
        (fs : list FileUpload.UploadedFile)
        (events : list Simulated.Event) :
  let page4 :=
    Index.after_tests_generated
      (Simulated.onTestGenerated_calls (Simulated.FourStep.run fs events))
      Index.initial in
  let page2 :=
    Index.after_tests_generated
      (Simulated.onTestGenerated_calls (Simulated.TwoStep.run fs events))
      Index.initial in
  (Index.banner page4 = None
   \/ Index.banner page4
      = Some (Index.mkBanner (Js.Num (12 # 1)) (Js.Num (171 # 2))
                             (Js.Str "2.34s")))
  /\ (Index.banner page2 = None
      \/ Index.banner page2
         = Some (Index.mkBanner Js.Undefined Js.Undefined Js.Undefined))
  /\ (Simulated.onTestGenerated_calls (Simulated.TwoStep.run fs events)
      <> [] ->
      Index.banner page2
      = Some (Index.mkBanner Js.Undefined Js.Undefined Js.Undefined)).
Proof.
  cbn zeta.
  assert (H4 : simulated_invariant Simulated.FourStep.mockResults
                 (Simulated.FourStep.run fs events))
    by (apply simulated_invariant_run; repeat constructor; discriminate).
  assert (H2 : simulated_invariant Simulated.TwoStep.finalResults
                 (Simulated.TwoStep.run fs events))
    by (apply simulated_invariant_run; repeat constructor; discriminate).
  destruct H4 as (_ & H4 & _). destruct H2 as (_ & H2 & _).
  split; [|split].
  - destruct (after_tests_generated_last
                (Simulated.onTestGenerated_calls
                   (Simulated.FourStep.run fs events)) Index.initial)
      as [Ht _].
    cbn [Index.testResults Index.initial] in Ht.
    destruct (last_of_constant _ Js.Null _ H4) as [E|E];
      rewrite E in Ht; rewrite (banner_of_results _ _ Ht);
      [now left | now right].
  - destruct (after_tests_generated_last
                (Simulated.onTestGenerated_calls
                   (Simulated.TwoStep.run fs events)) Index.initial)
      as [Ht _].
    cbn [Index.testResults Index.initial] in Ht.
    destruct (last_of_constant _ Js.Null _ H2) as [E|E];
      rewrite E in Ht; rewrite (banner_of_results _ _ Ht);
      [now left | now right].
  - intros Hne.
    destruct (after_tests_generated_last
                (Simulated.onTestGenerated_calls
                   (Simulated.TwoStep.run fs events)) Index.initial)
      as [Ht _].
    cbn [Index.testResults Index.initial] in Ht.
    rewrite (banner_of_results _ _ Ht).
    destruct (Simulated.onTestGenerated_calls
                (Simulated.TwoStep.run fs events))
      as [|v calls] using rev_ind; [congruence|].
    rewrite last_last. apply Forall_app in H2 as [_ H2].
    inversion H2; subst. reflexivity.
Qed.

(** ** Clicks while a run is waiting *)

(** X18: in the backend-calling and in the two-step version a click on the
    Generate button while a call is waiting changes nothing at all: no
    state is set, no request is posted, no second call starts. *)
Theorem click_while_waiting_is_ignored
        (fs : list FileUpload.UploadedFile) :
  (forall events,
      Api.in_flight (Api.run fs events) = 1 ->
      Api.step (Api.run fs events) Api.Click = Api.run fs events)
  /\ (forall events,
        Simulated.in_flight (Simulated.TwoStep.run fs events) = 1 ->
        Simulated.TwoStep.step (Simulated.TwoStep.run fs events)
                               Simulated.Click
        = Simulated.TwoStep.run fs events).
Proof.
  split; intros events Hin.
  - assert (Inv : api_invariant (Api.run fs events)).
    { unfold Api.run. apply (fold_left_invariant api_invariant);
        [apply api_step_invariant|]. left. split; reflexivity. }
    destruct Inv as [[H0 _] | [_ Hg]]; [congruence|].
    cbn [Api.step]. rewrite Hg. cbn. now rewrite orb_true_r.
  - assert (Inv : two_step_invariant (Simulated.TwoStep.run fs events)).
    { unfold Simulated.TwoStep.run, Simulated.run.
      apply (fold_left_invariant two_step_invariant);
        [apply two_step_step_invariant|]. left. split; reflexivity. }
    unfold Simulated.in_flight in Hin.
    unfold Simulated.TwoStep.step. cbn [Simulated.step].
    destruct Inv as [[H0 _] | [[_ Hs] | [_ Hs]]];
      [rewrite H0 in Hin; discriminate | |];
      rewrite Hs; cbn; now rewrite orb_true_r.
Qed.

(** X19: the status icon agrees with the button: in the four-step version
    the spinner is drawn exactly in the statuses in which the button is
    disabled; the other two versions draw it exactly in ['generating'] and
    ['parsing'], their disabled statuses, and nothing for ['idle']. *)
Theorem spinner_iff_button_disabled (s : TestGeneration.TestStatus) :
  (View.getStatusIcon_four_step s = Some View.Loader2
   <-> TestGeneration.disabled s = true)
  /\ (s <> TestGeneration.running ->
      (View.getStatusIcon s = Some View.Loader2
       <-> TestGeneration.disabled s = true))
  /\ (View.getStatusIcon s = None
      <-> s = TestGeneration.idle \/ s = TestGeneration.running).
Proof.
  destruct s; cbn; repeat split; intros; try discriminate; try congruence;
    auto; try (destruct H; discriminate).
Qed.

(** ** The report as it is shown *)

Section ReportShown.
Import TestGeneration.

Lemma falsy_is_valid_child (v : Js.Value) :
  Js.truthy v = false -> valid_child v = true.
Proof. destruct v; cbn; congruence. Qed.

Lemma valid_child_or_else_eq (v : Js.Value) (s : string) :
  valid_child (Js.or_else v (Js.Str s)) = valid_child v.
Proof.
  unfold Js.or_else. destruct (Js.truthy v) eqn:E; [reflexivity|].
  now rewrite (falsy_is_valid_child v E).
Qed.

Lemma entry_throws_iff (v : Js.Value) (index : nat) :
  entry_throws v index = true <-> bad_entry v.
Proof.
  unfold entry_throws, bad_entry, renderRow.
  destruct v as [| |b|q|s|items|props]; cbn [Js.get is_nullish].
  1-2: split; [now left | reflexivity].
  1-4: split; [discriminate|];
    intros [H | (k & field & _ & [= <-] & H)]; discriminate.
  unfold row_shows.
  cbn [cell_function_name cell_description cell_expected_result].
  rewrite !valid_child_or_else_eq. split.
  - intros H. right.
    destruct (valid_child (Js.lookup "function_name" props)) eqn:Ef;
      [|exists "function_name", (Js.lookup "function_name" props);
        cbn; auto].
    destruct (valid_child (Js.lookup "description" props)) eqn:Ed;
      [|exists "description", (Js.lookup "description" props);
        cbn; auto].
    destruct (valid_child (Js.lookup "expected_result" props)) eqn:Ee;
      [discriminate|].
    exists "expected_result", (Js.lookup "expected_result" props).
    cbn; auto.
  - intros [H | (k & field & Hk & [= <-] & H)]; [discriminate|].
    cbn [In] in Hk. destruct Hk as [<- | [<- | [<- | []]]]; rewrite H;
      cbn; rewrite ?andb_false_r; reflexivity.
Qed.

Lemma report_throws_cons (v : Js.Value) (rest : list Js.Value)
      (index : nat) :
  report_throws (v :: rest) index
  = entry_throws v index || report_throws rest (S index).
Proof.
  unfold report_throws, entry_throws. cbn [mapRows].
  destruct (renderRow v index) as [r|]; [|reflexivity].
  destruct (mapRows rest (S index)) as [rs|]; cbn [forallb].
  - now rewrite negb_andb.
  - now rewrite orb_true_r.
Qed.

Lemma report_throws_iff (items : list Js.Value) :
  forall index,
    report_throws items index = true <-> Exists bad_entry items.
Proof.
  induction items as [|v rest IH]; intros index.
  - cbn. split; [discriminate | intros H; inversion H].
  - rewrite report_throws_cons, orb_true_iff, Exists_cons,
      entry_throws_iff, IH. reflexivity.
Qed.

Lemma mapRows_nth (items : list Js.Value) :
  forall index rows i item row,
    mapRows items index = Some rows ->
    nth_error items i = Some item ->
    nth_error rows i = Some row ->
    renderRow item (index + i) = Some row.
Proof.
  induction items as [|v rest IH]; intros index rows i item row;
    cbn [mapRows]; [destruct i; discriminate|].
  destruct (renderRow v index) as [r|] eqn:Er; [|discriminate].
  destruct (mapRows rest (S index)) as [rs|] eqn:Ers; [|discriminate].
  intros [= <-]. destruct i as [|i]; cbn [nth_error].
  - intros [= <-] [= <-]. now rewrite Nat.add_0_r.
  - intros Hi Hr. rewrite <- Nat.add_succ_comm.
    exact (IH (S index) rs i item row Ers Hi Hr).
Qed.

Lemma mapRows_length (items : list Js.Value) :
  forall index rows,
    mapRows items index = Some rows ->
    List.length rows = List.length items.
Proof.
  intros index rows H. exact (proj1 (mapRows_some items index rows H)).
Qed.

End ReportShown.

(** X13: showing the report throws exactly when the report data is neither
    [null], [undefined] nor an array, or is an array with an entry that is
    [null] or [undefined] or whose [function_name], [description] or
    [expected_result] is a value React rejects (a plain object, or an array
    holding one).  The placeholder is shown exactly for [null] and
    [undefined].  Otherwise there is one row per entry, in order; a field
    that is truthy is shown as it is, a field that is missing or falsy as
    "N/A", and the status is "Pending". *)
Theorem report_rendering_edges :
  (forall v,
      TestGeneration.renderExcelData v = TestGeneration.Placeholder
      <-> is_nullish v = true)
  /\ (forall v,
        is_nullish v = false ->
        (forall items, v <> Js.Arr items) ->
        TestGeneration.renderExcelData v = TestGeneration.RenderError)
  /\ (forall items,
        TestGeneration.renderExcelData (Js.Arr items)
        = TestGeneration.RenderError
        <-> Exists bad_entry items)
  /\ (forall items rows,
        TestGeneration.renderExcelData (Js.Arr items)
        = TestGeneration.Rows rows ->
        List.length rows = List.length items
        /\ forall i item row,
             nth_error items i = Some item ->
             nth_error rows i = Some row ->
             TestGeneration.cell_status row = "Pending"
             /\ forall k cell,
                  In (k, cell)
                     [ ("function_name",
                        TestGeneration.cell_function_name row);
                       ("description",
                        TestGeneration.cell_description row);
                       ("expected_result",
                        TestGeneration.cell_expected_result row) ] ->
                  exists field,
                    Js.get item k = Some field
                    /\ (Js.truthy field = true -> cell = field)
                    /\ (Js.truthy field = false -> cell = Js.Str "N/A")).
Proof.
  split; [|split; [|split]].
  - intros v. destruct v; cbn; split; intros H; try discriminate;
      try reflexivity.
    destruct (TestGeneration.mapRows items 0) as [rows|];
      [destruct (forallb TestGeneration.row_shows rows)|]; discriminate.
  - intros v Hn Ha. destruct v; cbn in *; try reflexivity; try discriminate.
    now destruct (Ha items).
  - intros items. rewrite <- (report_throws_iff items 0).
    unfold TestGeneration.renderExcelData, report_throws.
    destruct (TestGeneration.mapRows items 0) as [rows|];
      [destruct (forallb TestGeneration.row_shows rows)|]; cbn;
      split; intros H; try discriminate; reflexivity.
  - intros items rows H. unfold TestGeneration.renderExcelData in H.
    destruct (TestGeneration.mapRows items 0) as [rows0|] eqn:Em;
      [|discriminate].
    destruct (forallb TestGeneration.row_shows rows0); [|discriminate].
    injection H as <-. split; [exact (mapRows_length items 0 rows0 Em)|].
    intros i item row Hi Hr.
    pose proof (mapRows_nth items 0 rows0 i item row Em Hi Hr) as Hrow.
    unfold TestGeneration.renderRow in Hrow.
    destruct (Js.get item "function_name") as [f|] eqn:Ef; [|discriminate].
    destruct (Js.get item "description") as [d|] eqn:Ed; [|discriminate].
    destruct (Js.get item "expected_result") as [e|] eqn:Ee;
      [|discriminate].
    injection Hrow as <-. split; [reflexivity|].
    intros k cell Hk. cbn [In] in Hk.
    destruct Hk as [[= <- <-] | [[= <- <-] | [[= <- <-] | []]]];
      [exists f | exists d | exists e];
      (split; [assumption|]); unfold Js.or_else;
      cbn [TestGeneration.cell_function_name
             TestGeneration.cell_description
             TestGeneration.cell_expected_result];
      split; intros ->; reflexivity.
Qed.

Example report_object_valued_field :
  TestGeneration.renderExcelData
    (Js.Arr [ Js.Obj [ ("function_name", Js.Obj [ ("a", Js.Num (1 # 1)) ]) ] ])
  = TestGeneration.RenderError.
Proof. reflexivity. Qed.

(** ** What the render function returns after a call *)

Section PanelFacts.
Import TestGeneration.

Lemma mapRows_clean (items : list Js.Value) :
  forallb (fun x => negb (is_nullish x)) items = true ->
  forall index, exists rows,
    mapRows items index = Some rows
    /\ List.length rows = List.length items.
Proof.
  induction items as [|v rest IH]; intros H index.
  - exists []. split; reflexivity.
  - cbn [forallb] in H. apply andb_true_iff in H as [Hv Hrest].
    destruct (IH Hrest (S index)) as (rs & Hrs & Hl).
    assert (exists r, renderRow v index = Some r) as [r Hr]
      by (destruct v; try discriminate; eexists; reflexivity).
    exists (r :: rs). cbn [mapRows List.length]. now rewrite Hr, Hrs, Hl.
Qed.

Lemma mapRows_dirty (items : list Js.Value) :
  forallb (fun x => negb (is_nullish x)) items = false ->
  forall index, mapRows items index = None.
Proof.
  induction items as [|v rest IH]; intros H index; [discriminate|].
  cbn [forallb] in H. cbn [mapRows].
  destruct (is_nullish v) eqn:Ev.
  - now destruct v.
  - cbn [negb andb] in H. rewrite (IH H (S index)).
    now destruct (renderRow v index).
Qed.

Lemma mapEntries_clean (items : list Js.Value) :
  forallb (fun x => negb (is_nullish x)) items = true ->
  exists es,
    View.mapEntries items = Some es
    /\ List.length es = List.length items.
Proof.
  induction items as [|v rest IH]; intros H.
  - exists []. split; reflexivity.
  - cbn [forallb] in H. apply andb_true_iff in H as [Hv Hrest].
    destruct (IH Hrest) as (es & Hes & Hl).
    assert (exists e, View.scriptEntry v = Some e) as [e He]
      by (destruct v; try discriminate; eexists; reflexivity).
    exists (e :: es). cbn [View.mapEntries List.length].
    now rewrite He, Hes, Hl.
Qed.

Lemma or_else_twice (v : Js.Value) (s : string) :
  Js.or_else (Js.or_else v (Js.Str "")) (Js.Str s) = Js.or_else v (Js.Str s).
Proof. unfold Js.or_else. now destruct (Js.truthy v) eqn:E; rewrite ?E. Qed.

Lemma truthy_or_else_empty (v : Js.Value) :
  Js.truthy (Js.or_else v (Js.Str "")) = Js.truthy v.
Proof. unfold Js.or_else. now destruct (Js.truthy v) eqn:E. Qed.

Lemma truthy_or_else_array (v : Js.Value) :
  Js.truthy (Js.or_else v (Js.Arr [])) = true.
Proof. unfold Js.or_else. now destruct (Js.truthy v) eqn:E. Qed.

Lemma clean_or_else_array (v : Js.Value) :
  clean_array (Js.or_else v (Js.Arr []))
  = if Js.truthy v then clean_array v else true.
Proof. unfold Js.or_else. now destruct (Js.truthy v). Qed.

(** The panel of the component a successful call leaves behind. *)
Lemma panel_succeeded (d tc rs mk csv : Js.Value) (c : Api.Component) :
  Js.get d "csv_content" = Some csv ->
  (clean_array (Js.or_else tc (Js.Arr [])) = false ->
   View.panel (succeeded d tc rs mk c) = None)
  /\ (clean_array (Js.or_else tc (Js.Arr [])) = true ->
      exists items rows es,
        Js.or_else tc (Js.Arr []) = Js.Arr items
        /\ View.panel (succeeded d tc rs mk c)
           = Some (View.mkPanel
                     (Some rows)
                     (Some (View.mkScripts
                              (Js.or_else rs
                                 (Js.Str "No test runner script available"))
                              (Js.or_else mk
                                 (Js.Str "No makefile available"))
                              (Some es)))
                     (Js.truthy csv) (Js.truthy rs) (Js.truthy mk))
        /\ List.length rows = List.length items
        /\ List.length es = List.length items).
Proof.
  intros Hcsv. unfold View.panel, succeeded.
  cbn [Api.excelData Api.testScripts Api.results Api.onTestGenerated
       Api.setStatus Api.setTestScripts Api.setExcelData Api.setResults].
  rewrite Hcsv.
  pose proof (truthy_or_else_array tc) as Ht.
  destruct (Js.or_else tc (Js.Arr [])) as [| |b|q|s|items|props] eqn:E;
    try discriminate.
  - split; [reflexivity | discriminate].
  - split; [reflexivity | discriminate].
  - split; [reflexivity | discriminate].
  - cbn [clean_array]. split; intros Hc.
    + cbn [View.map_or_placeholder]. now rewrite (mapRows_dirty items Hc 0).
    + destruct (mapRows_clean items Hc 0) as (rows & Hrows & Hlr).
      destruct (mapEntries_clean items Hc) as (es & Hes & Hle).
      exists items, rows, es. split; [reflexivity|].
      cbn [View.map_or_placeholder View.scriptsView Js.truthy View.opt_get
           Js.get Js.lookup String.eqb Ascii.eqb Bool.eqb].
      rewrite Hrows, Hes. cbn [option_map].
      rewrite !or_else_twice, !truthy_or_else_empty.
      split; [reflexivity|]. split; assumption.
  - split; [reflexivity | discriminate].
Qed.

End PanelFacts.

Section RenderAfterCall.
Import TestGeneration.

Lemma files_not_empty (c : Api.Component) :
  Api.files c <> [] -> (List.length (Api.files c) =? 0)%nat = false.
Proof. destruct (Api.files c); [congruence | reflexivity]. Qed.

Lemma render_failed (e : Js.Value) (c : Api.Component) :
  Api.files c <> [] ->
  View.render (Api.generateTests_catch e (awaiting c))
  = View.Main true None.
Proof.
  intros H. unfold View.render.
  cbn [Api.generateTests_catch Api.files Api.console_error
       Api.setCurrentStep Api.setStatus awaiting Api.post Api.setProgress].
  rewrite (files_not_empty c H). unfold View.showResults, View.showProgress.
  cbn. now rewrite andb_false_r.
Qed.

Lemma render_succeeded (d tc rs mk : Js.Value) (c : Api.Component) :
  Api.files c <> [] ->
  Js.truthy d = true ->
  View.render (succeeded d tc rs mk (awaiting c))
  = match View.panel (succeeded d tc rs mk (awaiting c)) with
    | Some p => View.Main true (Some p)
    | None => View.RenderThrows
    end.
Proof.
  intros H Ht. unfold View.render.
  replace (Api.files (succeeded d tc rs mk (awaiting c))) with (Api.files c)
    by reflexivity.
  rewrite (files_not_empty c H). unfold View.showResults, View.showProgress.
  cbn [succeeded Api.results Api.status Api.onTestGenerated Api.setStatus
       Api.setTestScripts Api.setExcelData Api.setResults].
  rewrite Ht. reflexivity.
Qed.

End RenderAfterCall.

(** X10: after a call of [generateTests] on a component with files, the
    component's render function returns the progress section and no
    results panel when the call did not settle as a success carrying data.
    When it did, the render function returns the progress section with the
    results panel, unless the data's [test_cases] is a truthy value that
    is not an array, or an array with a [null] or [undefined] entry: then
    rendering the component throws. *)
Theorem results_panel_iff_success
        (c : Api.Component) (fr : Api.FetchResult) :
  Api.files c <> [] ->
  let c' := Api.generateTests fr c in
  (success_with_data fr = false ->
   View.render c' = View.Main true None)
  /\ (forall st0 resp d tc,
        fr = Api.Response true st0 (Some resp) ->
        Js.get resp "status" = Some (Js.Str "success") ->
        Js.get resp "data" = Some d ->
        Js.truthy d = true ->
        Js.get d "test_cases" = Some tc ->
        (Js.truthy tc = true /\ clean_array tc = false ->
         View.render c' = View.RenderThrows)
        /\ (Js.truthy tc = false \/ clean_array tc = true ->
            exists p, View.render c' = View.Main true (Some p))).
Proof.
  intros Hfiles. cbn zeta. rewrite generateTests_with_files by exact Hfiles.
  split.
  - intros Hfail. destruct (resume_failure fr (awaiting c) Hfail) as [e ->].
    now apply render_failed.
  - intros st0 resp d tc -> Hs Hd Ht Htc.
    destruct (resume_success st0 resp d (awaiting c) Hs Hd Ht)
      as (tc' & rs & mk & Htc' & _ & _ & ->).
    rewrite Htc in Htc'. injection Htc' as <-.
    destruct (truthy_get d "csv_content" Ht) as [csv Hcsv].
    rewrite (render_succeeded d tc rs mk c Hfiles Ht).
    destruct (panel_succeeded d tc rs mk csv (awaiting c) Hcsv)
      as [Hbad Hgood].
    rewrite clean_or_else_array in Hbad, Hgood. split.
    + intros [Htt Hc]. rewrite Htt in Hbad. now rewrite (Hbad Hc).
    + intros Hok.
      assert (Hclean : (if Js.truthy tc then clean_array tc else true)
                       = true)
        by (destruct Hok as [-> | Hc]; [reflexivity|];
            destruct (Js.truthy tc); [exact Hc | reflexivity]).
      destruct (Hgood Hclean) as (items & rows & es & _ & -> & _).
      eexists. reflexivity.
Qed.

Lemma results_panel_witness :
  Api.files (Api.initial one_file) <> []
  /\ View.render (Api.generateTests error_response (Api.initial one_file))
     = View.Main true None.
Proof.
  assert (H : Api.files (Api.initial one_file) <> []) by discriminate.
  split; [exact H|].
  exact (proj1 (results_panel_iff_success
                  (Api.initial one_file) error_response H) eq_refl).
Defined.

(** X11: after a successful call the scripts object holds the data's
    runner script and makefile, or the empty string where the data lacks
    them, and a [test_cases] that is the same, always truthy, value as the
    report data.  When rendering does not throw ([test_cases] of the data
    falsy, or an array without [null] and [undefined] entries), the panel
    the render function returns has each download button exactly when the
    data carries a truthy value for it, and its scripts dialog shows the
    data's runner script and makefile, or "No test runner script
    available" and "No makefile available" in their place. *)
Theorem downloads_follow_the_data
        (c : Api.Component) (st0 : string) (resp d : Js.Value) :
  Api.files c <> [] ->
  Js.get resp "status" = Some (Js.Str "success") ->
  Js.get resp "data" = Some d ->
  Js.truthy d = true ->
  let c' := Api.generateTests (Api.Response true st0 (Some resp)) c in
  exists tc rs mk csv,
    Js.get d "test_cases" = Some tc
    /\ Js.get d "test_runner_script" = Some rs
    /\ Js.get d "makefile_content" = Some mk
    /\ Js.get d "csv_content" = Some csv
    /\ Api.testScripts c'
       = Js.Obj [ ("test_runner_script", Js.or_else rs (Js.Str ""));
                  ("makefile_content", Js.or_else mk (Js.Str ""));
                  ("test_cases", Js.or_else tc (Js.Arr [])) ]
    /\ Js.get (Api.testScripts c') "test_cases" = Some (Api.excelData c')
    /\ Js.truthy (Api.excelData c') = true
    /\ (Js.truthy tc = false \/ clean_array tc = true ->
        exists p sc,
          View.render c' = View.Main true (Some p)
          /\ View.runnerDownload p = Js.truthy rs
          /\ View.makefileDownload p = Js.truthy mk
          /\ View.csvDownload p = Js.truthy csv
          /\ View.scripts p = Some sc
          /\ View.runner_text sc
             = (if Js.truthy rs then rs
                else Js.Str "No test runner script available")
          /\ View.makefile_text sc
             = (if Js.truthy mk then mk
                else Js.Str "No makefile available")).
Proof.
  intros Hfiles Hs Hd Ht. cbn zeta.
  rewrite generateTests_with_files by exact Hfiles.
  destruct (resume_success st0 resp d (awaiting c) Hs Hd Ht)
    as (tc & rs & mk & Htc & Hrs & Hmk & ->).
  destruct (truthy_get d "csv_content" Ht) as [csv Hcsv].
  exists tc, rs, mk, csv. repeat (split; [assumption|]).
  split; [reflexivity|]. split; [reflexivity|].
  split; [apply truthy_or_else_array|].
  intros Hok.
  assert (Hclean : clean_array (Js.or_else tc (Js.Arr [])) = true).
  { rewrite clean_or_else_array. destruct Hok as [-> | Hc]; [reflexivity|].
    destruct (Js.truthy tc); [exact Hc | reflexivity]. }
  destruct (proj2 (panel_succeeded d tc rs mk csv (awaiting c) Hcsv) Hclean)
    as (items & rows & es & _ & Hp & _).
  rewrite (render_succeeded d tc rs mk c Hfiles Ht), Hp.
  eexists. eexists. split; [reflexivity|].
  cbn [View.runnerDownload View.makefileDownload View.csvDownload
       View.scripts View.runner_text View.makefile_text].
  repeat split.
Qed.

Lemma downloads_witness :
  Api.files (Api.initial one_file) <> []
  /\ exists p,
       View.render
         (Api.generateTests success_response (Api.initial one_file))
       = View.Main true (Some p)
       /\ View.runnerDownload p = true
       /\ View.makefileDownload p = false.
Proof.
  assert (H : Api.files (Api.initial one_file) <> []) by discriminate.
  split; [exact H|].
  destruct (downloads_follow_the_data (Api.initial one_file) "OK"
              (Js.Obj
                 [ ("status", Js.Str "success");
                   ("data",
                    Js.Obj [ ("test_cases", Js.Arr three_test_cases);
                             ("test_runner_script",
                              Js.Str "int main(void) {}") ]) ])
              (Js.Obj [ ("test_cases", Js.Arr three_test_cases);
                        ("test_runner_script", Js.Str "int main(void) {}") ])
              H eq_refl eq_refl eq_refl)
    as (tc & rs & mk & csv & Htc & Hrs & Hmk & _ & _ & _ & _ & Hpanel).
  cbn in Htc, Hrs, Hmk. injection Htc as <-. injection Hrs as <-.
  injection Hmk as <-.
  destruct (Hpanel (or_intror eq_refl))
    as (p & sc & Hr & Hrun & Hmake & _).
  exists p. repeat split; assumption.
Defined.
